(** * dtu_mlops, PyTorch exercise notebooks: checkpoints, autograd, training loop

    A shallow embedding of the code cells of
    [6_Saving_and_Loading_Models.ipynb] and [3_Training_Neural_Networks.ipynb].

    The notebooks are glue code over an external framework.  The code of the
    cells is written as programs over the framework calls they make ([op]);
    the framework itself is a handler of these calls.  Statements about the
    cells' own control flow are proved for every handler; statements that
    depend on what the framework does are proved for the handler [torch]
    below, which follows the behaviour visible in the notebooks' recorded
    outputs.  What the framework decides and the notebooks do not show is
    left open: theorems about the file system are stated for every framework
    whose calls write where their arguments say. *)

From Stdlib Require Import ZArith QArith Qround Qabs Qfield Ascii.
From Stdlib Require Import Floats.SpecFloat.
From stdpp Require Import gmap strings list pretty.

#[local] Set Warnings "-register-all,-clear-no-such-hyp".
#[local] Open Scope nat_scope.
#[local] Open Scope string_scope.
#[local] Open Scope list_scope.

(** ** Single precision numbers *)

(** The entries of the notebooks' tensors are float32 numbers: a finite
    number, an infinity or NaN.  A finite number is given by its value;
    [-0.0] and [0.0], which compare equal, are one value. *)
Inductive float32 :=
| Finite (q : Q)
| Infinity (negative : bool)
| NaN.

Module Float32.

(** The nearest integer, the even one of two that are equally near. *)
Definition nearest_even (q : Q) : Z :=
  let f := Qfloor q in
  match Qcompare (q - inject_Z f) (1 # 2) with
  | Lt => f
  | Gt => (f + 1)%Z
  | Eq => if Z.even f then f else (f + 1)%Z
  end.

(** The binary exponent of a positive number: [2 ^ ilog2 q <= q]
    and [q < 2 ^ (ilog2 q + 1)]. *)
Definition ilog2 (q : Q) : Z :=
  let e := (Z.log2 (Qnum q) - Z.log2 (Zpos (Qden q)))%Z in
  if Qle_bool (2 ^ e) q then e else (e - 1)%Z.

Definition negative (x : Q) : bool := (Qnum x <? 0)%Z.
Definition is_zero (x : Q) : bool := (Qnum x =? 0)%Z.

(** IEEE 754 binary32, round to nearest, ties to even: 24 significant bits,
    no bit below [2 ^ -149], and infinity from [2 ^ 128] on (after
    rounding). *)
Definition round (x : Q) : float32 :=
  let x := Qred x in
  if is_zero x then Finite 0
  else
    let a := Qabs x in
    let e := Z.max (ilog2 a - 23) (-149) in
    let y := (inject_Z (nearest_even (a / 2 ^ e)) * 2 ^ e)%Q in
    if Qle_bool (2 ^ 128) y then Infinity (negative x)
    else Finite (Qred (if negative x then - y else y)).

(** The operations: the exact result, rounded. *)
Definition mul (a b : float32) : float32 :=
  match a, b with
  | NaN, _ | _, NaN => NaN
  | Finite x, Finite y => round (x * y)
  | Finite x, Infinity s | Infinity s, Finite x =>
      if is_zero x then NaN else Infinity (xorb s (negative x))
  | Infinity s, Infinity t => Infinity (xorb s t)
  end.

(** A zero divisor is [0.0], as the number of elements of an empty tensor
    is. *)
Definition div (a b : float32) : float32 :=
  match a, b with
  | NaN, _ | _, NaN => NaN
  | Finite x, Finite y =>
      if is_zero y then (if is_zero x then NaN else Infinity (negative x))
      else round (x / y)
  | Finite _, Infinity _ => Finite 0
  | Infinity s, Finite y => Infinity (xorb s (negative y))
  | Infinity _, Infinity _ => NaN
  end.

Definition add (a b : float32) : float32 :=
  match a, b with
  | NaN, _ | _, NaN => NaN
  | Finite x, Finite y => round (x + y)
  | Finite _, Infinity s | Infinity s, Finite _ => Infinity s
  | Infinity s, Infinity t => if Bool.eqb s t then Infinity s else NaN
  end.

(** A Python int or float as a float32. *)
Definition of_Z (n : Z) : float32 := round (inject_Z n).
Definition of_nat (n : nat) : float32 := of_Z (Z.of_nat n).

(** [x ** n] for a small Python int [n]: repeated multiplication. *)
Fixpoint pow (x : float32) (n : nat) : float32 :=
  match n with
  | 0 => Finite 1
  | S n' => match n' with 0 => x | S _ => mul x (pow x n') end
  end.

(** [1 / n] is a float32 again: multiplying by it is dividing by [n]. *)
Definition exact_reciprocal (n : float32) : bool :=
  match n, div (Finite 1) n with
  | Finite x, Finite r =>
      negb (is_zero x) && negb (negative x) && negb (is_zero r)
      && negb (negative r) && Qeq_bool (r * x) 1
  | _, _ => false
  end.

(** The same arithmetic in the Standard Library's specification of IEEE 754
    ([SpecFloat], with 24 bits of precision and exponents below 128), to
    compare [round] and the operations with. *)
Definition of_spec_float (f : spec_float) : float32 :=
  match f with
  | S754_zero _ => Finite 0
  | S754_infinity s => Infinity s
  | S754_nan => NaN
  | S754_finite s m e =>
      Finite (Qred ((if s then - 1 else 1) * inject_Z (Zpos m) * 2 ^ e))
  end.

(** [m * 2 ^ e] as a binary32 number of [SpecFloat]. *)
Definition spec_float_of (m e : Z) : spec_float :=
  binary_normalize 24 128 m e false.

Definition same (a b : float32) : bool :=
  match a, b with
  | Finite x, Finite y => Qeq_bool x y
  | Infinity s, Infinity t => Bool.eqb s t
  | NaN, NaN => true
  | _, _ => false
  end.

(** Rounding and the three operations agree with [SpecFloat] on the numbers
    [m1 * 2 ^ e1] and [m2 * 2 ^ e2]. *)
Definition agrees (m1 e1 m2 e2 : Z) : bool :=
  let s1 := spec_float_of m1 e1 in
  let s2 := spec_float_of m2 e2 in
  let f1 := of_spec_float s1 in
  let f2 := of_spec_float s2 in
  same f1 (round (inject_Z m1 * 2 ^ e1))
  && same (of_spec_float (SFmul 24 128 s1 s2)) (mul f1 f2)
  && same (of_spec_float (SFdiv 24 128 s1 s2)) (div f1 f2)
  && same (of_spec_float (SFadd 24 128 s1 s2)) (add f1 f2).

(** Mantissas and exponents that reach the subnormal numbers, the ties and
    the overflow. *)
Definition sample_mantissas : list Z :=
  [0; 1; -1; 3; 5; -7; 8388607; 8388608; 8388609; -12345677; 16777215;
   16777217; 25165825; 33554431; 11184811]%Z.
Definition sample_exponents : list Z :=
  (λ n, (Z.of_nat n * 13 - 175)%Z) <$> seq 0 26.
Definition sample_partners : list (Z * Z) :=
  [(1, 0); (3, 0); (-3, -1); (11184811, -25); (13631488, -23);
   (16777215, 104); (1, -149); (8388609, -100); (5, 60)]%Z.

End Float32.

(** ** Python values *)

(** A tensor: its [shape] and its storage, read by flat index. *)
Record tensor := Tensor { shape : list nat; storage : nat → float32 }.

(** [torch.numel] *)
Definition numel (t : tensor) : nat := foldr Nat.mul 1 (shape t).

(** [nn.Linear(in_features, out_features)]; [weight] has shape
    [[out_features; in_features]] and [bias] has shape [[out_features]]. *)
Record Linear := MkLinear
  { in_features : nat; out_features : nat; weight : tensor; bias : tensor }.

(** An [fc_model.Network] object as the notebook prints it: the module list
    [hidden_layers], the [output] layer and the dropout probability. *)
Record Network := MkNetwork
  { hidden_layers : list Linear; output : Linear; dropout : Q }.

(** Modules are mutable objects: a variable holds a reference into the heap. *)
Definition loc := nat.

Inductive pyobj :=
| PyNone
| PyInt (n : Z)
| PyStr (s : string)
| PyList (items : list pyobj)
| PyTensor (t : tensor)
| PyDict (d : gmap string pyobj)
| PyModule (l : loc)
| PyOpaque (repr : string).

(** One line of [error_msgs] in [Module.load_state_dict]. *)
Inductive error_msg :=
| MissingKeys (keys : list string)
| UnexpectedKeys (keys : list string)
| SizeMismatch (key : string) (from_checkpoint in_model : list nat)
| NotATensor (key : string)
| Message (text : string).

Inductive exn :=
| FileNotFoundError (path : string)
| IsADirectoryError (path : string)
| NotADirectoryError (path : string)
| NameError (name : string)
| KeyError (key : string)
| IndexError
| TypeError
| AttributeError
| ValueError
| ZeroDivisionError
| RuntimeError (error_msgs : list error_msg).

Inductive result (A : Type) :=
| Ok (a : A)
| Err (e : exn).
Arguments Ok {A} a.
Arguments Err {A} e.

(** ** Framework calls made by the cells *)

Inductive op : Type → Type :=
(* torch *)
| TorchSave (obj : pyobj) (f : string) : op unit
| TorchLoad (f : string) : op pyobj
| LoadStateDict (model : loc) (state_dict : pyobj) : op unit
| Deref (model : loc) : op Network
(* fc_model *)
| NetworkNew (input_size output_size hidden_layers : pyobj) : op loc
| Train (model : loc) (epochs : nat) : op unit
(* torchvision.datasets *)
| DatasetNew (root : string) (download train : bool) : op pyobj
(* the notebook itself *)
| Display (args : list pyobj) : op unit
| GetGlobal (x : string) : op pyobj
| SetGlobal (x : string) (v : pyobj) : op unit
(* the interpreter *)
| Import (module : string) : op unit
| Magic (line : string) : op unit.

(** A cell's code: it returns, raises, or calls the framework and goes on
    with the value the call returned.  No constructor catches an exception:
    the cells have no [try]. *)
Inductive prog (A : Type) : Type :=
| Ret (a : A)
| Raise (e : exn)
| Call {X : Type} (o : op X) (k : X → prog A).
Arguments Ret {A} a.
Arguments Raise {A} e.
Arguments Call {A X} o k.

Fixpoint prog_bind {A B} (p : prog A) (f : A → prog B) : prog B :=
  match p with
  | Ret a => f a
  | Raise e => Raise e
  | Call o k => Call o (λ x, prog_bind (k x) f)
  end.

#[export] Instance prog_ret : MRet prog := λ A a, Ret a.
#[export] Instance prog_mbind : MBind prog := λ A B f p, prog_bind p f.

Definition call {X} (o : op X) : prog X := Call o Ret.

(** A value or an exception of plain Python code (a subscript). *)
Definition lift {A} (r : result A) : prog A :=
  match r with Ok a => Ret a | Err e => Raise e end.

(** A call with the outcome the framework gave it. *)
Inductive event :=
| Event {X : Type} (o : op X) (r : result X).

Definition handler (W : Type) : Type := ∀ X, op X → W → result X * W.

(** Running a program against a framework: the outcome, the final state and
    the calls made, in order. *)
Fixpoint run {W A} (h : handler W) (p : prog A) (w : W)
  : result A * W * list event :=
  match p with
  | Ret a => (Ok a, w, [])
  | Raise e => (Err e, w, [])
  | Call o k =>
      match h _ o w with
      | (Ok x, w') =>
          let '(r, w'', tr) := run h (k x) w' in (r, w'', Event o (Ok x) :: tr)
      | (Err e, w') => (Err e, w', [Event o (Err e)])
      end
  end.

(** ** Python subscripts *)

(** [obj[key]] for a string key. *)
Definition getitem (obj : pyobj) (key : string) : result pyobj :=
  match obj with
  | PyDict d =>
      match d !! key with
      | Some v => Ok v
      | None => Err (KeyError key)
      end
  | PyTensor _ => Err IndexError
  | _ => Err TypeError
  end.

(** ** The load half of the helper (notebook 6, cell 12) *)

Definition load_checkpoint (filepath : string) : prog loc :=
  checkpoint ← call (TorchLoad filepath);
  input_size ← lift (getitem checkpoint "input_size");
  output_size ← lift (getitem checkpoint "output_size");
  hidden ← lift (getitem checkpoint "hidden_layers");
  model ← call (NetworkNew input_size output_size hidden);
  state_dict ← lift (getitem checkpoint "state_dict");
  _ ← call (LoadStateDict model state_dict);
  mret model.

(** ** The framework *)

(** *** [fc_model.Network] *)

(** The numbers the random initialisers are going to draw. *)
Definition advance (n : nat) (r : nat → float32) : nat → float32 :=
  λ i, r (n + i).

(** A tensor of the given shape filled from the stream. *)
Definition fresh_tensor (sh : list nat) (r : nat → float32)
  : tensor * (nat → float32) :=
  (Tensor sh r, advance (foldr Nat.mul 1 sh) r).

Definition Linear_new (i o : nat) (r : nat → float32)
  : Linear * (nat → float32) :=
  let '(w, r1) := fresh_tensor [o; i] r in
  let '(b, r2) := fresh_tensor [o] r1 in
  (MkLinear i o w b, r2).

Fixpoint hidden_new (i : nat) (hs : list nat) (r : nat → float32)
  : list Linear * (nat → float32) :=
  match hs with
  | [] => ([], r)
  | h :: hs' =>
      let '(l, r1) := Linear_new i h r in
      let '(ls, r2) := hidden_new h hs' r1 in
      (l :: ls, r2)
  end.

(** A layer size: a non-negative int. *)
Definition as_size (v : pyobj) : result nat :=
  match v with
  | PyInt n =>
      if (0 <=? n)%Z then Ok (Z.to_nat n)
      else Err (RuntimeError [Message "negative dimension"])
  | _ => Err TypeError
  end.

Fixpoint as_sizes (vs : list pyobj) : result (list nat) :=
  match vs with
  | [] => Ok []
  | v :: vs' =>
      match as_size v with
      | Ok n =>
          match as_sizes vs' with
          | Ok ns => Ok (n :: ns)
          | Err e => Err e
          end
      | Err e => Err e
      end
  end.

(** Modelled from the spec: the class [fc_model.Network] is not among the
    sources.  The spec gives the checkpoint's hyperparameters as input and
    output dimensionality and a list of hidden-layer widths; the notebook
    prints the module built from (784, 10, [512, 256, 128]) as a module list
    [hidden_layers] of [Linear] layers chained from the input size through
    the widths, an [output] layer from the last width to the output size and
    [Dropout(p=0.5)].  The first hidden layer takes [hidden_layers[0]], so an
    empty list of widths is an [IndexError]. *)
Definition Network_new (input_size output_size hidden : pyobj)
    (r : nat → float32) : result (Network * (nat → float32)) :=
  match hidden with
  | PyList items =>
      match last items with
      | None => Err IndexError
      | Some _ =>
          match as_size input_size, as_sizes items, as_size output_size with
          | Ok i, Ok hs, Ok o =>
              let '(hid, r1) := hidden_new i hs r in
              let '(out, r2) := Linear_new (default i (last hs)) o r1 in
              Ok (MkNetwork hid out (1 # 2), r2)
          | Err e, _, _ | Ok _, Err e, _ | Ok _, Ok _, Err e => Err e
          end
      end
  | _ => Err TypeError
  end.

(** *** [state_dict] and [load_state_dict] *)

Definition layer_parameters (prefix : string) (l : Linear)
  : list (string * tensor) :=
  [(prefix +:+ "weight", weight l); (prefix +:+ "bias", bias l)].

Definition hidden_prefix (i : nat) : string :=
  "hidden_layers." +:+ pretty i +:+ ".".

(** The parameters of the module list from index [i] on. *)
Fixpoint hidden_parameters (i : nat) (ls : list Linear)
  : list (string * tensor) :=
  match ls with
  | [] => []
  | l :: ls' =>
      layer_parameters (hidden_prefix i) l ++ hidden_parameters (S i) ls'
  end.

(** The parameters in the order the notebook prints the state dict keys. *)
Definition named_parameters (m : Network) : list (string * tensor) :=
  hidden_parameters 0 (hidden_layers m)
  ++ layer_parameters "output." (output m).

(** [model.state_dict()] *)
Definition state_dict (m : Network) : gmap string pyobj :=
  list_to_map (prod_map id PyTensor <$> named_parameters m).

(** What loading found for one parameter: the messages and missing keys. *)
Definition findings : Type := list error_msg * list string.

(** One parameter of [_load_from_state_dict]: a tensor under the
    parameter's key is copied in when its shape is the parameter's. *)
Definition load_param (sd : gmap string pyobj) (key : string) (p : tensor)
  : tensor * findings :=
  match sd !! key with
  | Some (PyTensor t) =>
      if decide (shape t = shape p) then (t, ([], []))
      else (p, ([SizeMismatch key (shape t) (shape p)], []))
  | Some _ => (p, ([NotATensor key], []))
  | None => (p, ([], [key]))
  end.

Definition clean_findings : findings := ([], []).

Definition join_findings (a b : findings) : findings :=
  (a.1 ++ b.1, a.2 ++ b.2).

Definition load_linear (sd : gmap string pyobj) (prefix : string) (l : Linear)
  : Linear * findings :=
  let '(w, fw) := load_param sd (prefix +:+ "weight") (weight l) in
  let '(b, fb) := load_param sd (prefix +:+ "bias") (bias l) in
  (MkLinear (in_features l) (out_features l) w b, join_findings fw fb).

Fixpoint load_hidden (sd : gmap string pyobj) (i : nat) (ls : list Linear)
  : list Linear * findings :=
  match ls with
  | [] => ([], ([], []))
  | l :: ls' =>
      let '(l1, f1) := load_linear sd (hidden_prefix i) l in
      let '(ls1, f2) := load_hidden sd (S i) ls' in
      (l1 :: ls1, join_findings f1 f2)
  end.

Definition load_network (sd : gmap string pyobj) (m : Network)
  : Network * findings :=
  let '(hid, fh) := load_hidden sd 0 (hidden_layers m) in
  let '(out, fo) := load_linear sd "output." (output m) in
  (MkNetwork hid out (dropout m), join_findings fh fo).

Definition unexpected_keys (sd : gmap string pyobj) (m : Network)
  : list string :=
  filter (λ k, k ∉ (named_parameters m).*1) (map_to_list sd).*1.

Definition nonempty {A} (f : list A → error_msg) (l : list A)
  : list error_msg :=
  match l with [] => [] | _ => [f l] end.

(** Modelled from the spec: [Module.load_state_dict] is the framework's and
    not among the sources.  The spec has it raise a shape-mismatch error for
    an incompatibly configured model; the notebook records the error of
    cell 10, one "size mismatch" line per parameter in the order of the
    model's parameters, and the lines of the framework that put the missing
    and unexpected keys in front and raise [RuntimeError] when there is any
    message.  The default is [strict=True].  The result is the module as the
    call leaves it (fitting parameters are copied even when the call raises)
    and the outcome. *)
Definition load_state_dict (m : Network) (state_dict : pyobj)
  : Network * result unit :=
  match state_dict with
  | PyDict sd =>
      let '(m', (msgs, missing)) := load_network sd m in
      let error_msgs :=
        nonempty MissingKeys missing
        ++ nonempty UnexpectedKeys (unexpected_keys sd m) ++ msgs in
      (m', match error_msgs with
           | [] => Ok ()
           | _ => Err (RuntimeError error_msgs)
           end)
  | _ => (m, Err TypeError)
  end.

(** *** [fc_model.train] *)

Definition train_linear (l : Linear) (r : nat → float32)
  : Linear * (nat → float32) :=
  let '(w, r1) := fresh_tensor (shape (weight l)) r in
  let '(b, r2) := fresh_tensor (shape (bias l)) r1 in
  (MkLinear (in_features l) (out_features l) w b, r2).

Fixpoint train_hidden (ls : list Linear) (r : nat → float32)
  : list Linear * (nat → float32) :=
  match ls with
  | [] => ([], r)
  | l :: ls' =>
      let '(l1, r1) := train_linear l r in
      let '(ls1, r2) := train_hidden ls' r1 in
      (l1 :: ls1, r2)
  end.

(** Modelled from the spec: [fc_model.train] is not among the sources.  The
    spec counts optimizer stepping among the framework calls; here training
    leaves every parameter with its shape and with values that are not
    known in advance (they are read from the stream). *)
Definition train_network (m : Network) (r : nat → float32)
  : Network * (nat → float32) :=
  let '(hid, r1) := train_hidden (hidden_layers m) r in
  let '(out, r2) := train_linear (output m) r1 in
  (MkNetwork hid out (dropout m), r2).

(** *** The state the cells act on *)

Inductive file :=
| Pickle (obj : pyobj)
| Directory.

Record world := World
  { fs : gmap string file;        (* the file system *)
    heap : gmap loc Network;      (* the module objects *)
    random : nat → float32;       (* the random numbers still to be drawn *)
    globals : gmap string pyobj   (* the notebook's variables *) }.

(** Modelled from the spec: [torch.save] and [torch.load] are the
    framework's serialization routine; a file holds the one object that was
    saved to it. *)
Definition torch_save (obj : pyobj) (f : string) (w : world)
  : result unit * world :=
  match fs w !! f with
  | Some Directory => (Err (IsADirectoryError f), w)
  | _ => (Ok (),
          World (<[f := Pickle obj]> (fs w)) (heap w) (random w) (globals w))
  end.

Definition torch_load (f : string) (w : world) : result pyobj * world :=
  match fs w !! f with
  | Some (Pickle obj) => (Ok obj, w)
  | Some Directory => (Err (IsADirectoryError f), w)
  | None => (Err (FileNotFoundError f), w)
  end.

(** Modelled from the spec: the data set classes are the framework's.  The
    cells call them with [download=True] under the comment "Download and
    load the training data": a data set that is not under [root] yet is
    fetched and written there.  The entry at [root] stands for the
    directory and the files the download puts below it. *)
Definition dataset_new (root : string) (download : bool) (w : world)
  : result pyobj * world :=
  match fs w !! root with
  | Some Directory => (Ok (PyOpaque "Dataset"), w)
  | Some (Pickle _) => (Err (NotADirectoryError root), w)
  | None =>
      if download then
        (Ok (PyOpaque "Dataset"),
         World (<[root := Directory]> (fs w)) (heap w) (random w) (globals w))
      else (Err (RuntimeError [Message "Dataset not found"]), w)
  end.

Definition network_new (input_size output_size hidden : pyobj) (w : world)
  : result loc * world :=
  match Network_new input_size output_size hidden (random w) with
  | Ok (m, r) =>
      let l := fresh (dom (heap w)) in
      (Ok l, World (fs w) (<[l := m]> (heap w)) r (globals w))
  | Err e => (Err e, w)
  end.

Definition module_load_state_dict (l : loc) (sd : pyobj) (w : world)
  : result unit * world :=
  match heap w !! l with
  | Some m =>
      let '(m', r) := load_state_dict m sd in
      (r, World (fs w) (<[l := m']> (heap w)) (random w) (globals w))
  | None => (Err ValueError, w)
  end.

Definition module_train (l : loc) (w : world) : result unit * world :=
  match heap w !! l with
  | Some m =>
      let '(m', r) := train_network m (random w) in
      (Ok (), World (fs w) (<[l := m']> (heap w)) r (globals w))
  | None => (Err ValueError, w)
  end.

(** The framework as the notebooks use it, on a machine that has the
    packages.  The state holds what the cells name: the two data set roots
    and the checkpoint file, the modules and the variables.  What the
    interpreter and the libraries write besides (files below the data set
    root, caches of imported modules) is not part of it. *)
Definition torch : handler world := λ X o,
  match o in op X return world → result X * world with
  | TorchSave obj f => torch_save obj f
  | TorchLoad f => torch_load f
  | LoadStateDict l sd => module_load_state_dict l sd
  | Deref l => λ w,
      match heap w !! l with
      | Some m => (Ok m, w)
      | None => (Err ValueError, w)
      end
  | NetworkNew a b c => network_new a b c
  | Train l _ => module_train l
  | DatasetNew root download _ => dataset_new root download
  | Display _ => λ w, (Ok (), w)
  | GetGlobal x => λ w,
      match globals w !! x with
      | Some v => (Ok v, w)
      | None => (Err (NameError x), w)
      end
  | SetGlobal x v => λ w,
      (Ok (), World (fs w) (heap w) (random w) (<[x := v]> (globals w)))
  | Import _ | Magic _ => λ w, (Ok (), w)
  end.

(** ** The cells of [6_Saving_and_Loading_Models.ipynb] *)

Module Notebook6.

(** [model.<attribute>] needs [model] to be a module. *)
Definition as_module (v : pyobj) : result loc :=
  match v with
  | PyModule l => Ok l
  | _ => Err AttributeError
  end.

Definition ints (ns : list nat) : pyobj :=
  PyList ((λ n, PyInt (Z.of_nat n)) <$> ns).

(** Cell 1: the magics and the imports. *)
Definition cell1 : prog unit :=
  _ ← call (Magic "matplotlib inline");
  _ ← call (Magic "config InlineBackend.figure_format = 'retina'");
  _ ← call (Import "fc_model");
  _ ← call (Import "helper");
  _ ← call (Import "torch");
  _ ← call (Import "torch");
  call (Import "torchvision").

(** Cell 2: the data sets and their loaders. *)
Definition cell2 : prog unit :=
  trainset ← call (DatasetNew "~/.pytorch/F_MNIST_data/" true true);
  _ ← call (SetGlobal "trainset" trainset);
  _ ← call (GetGlobal "trainset");
  _ ← call (SetGlobal "trainloader" (PyOpaque "DataLoader"));
  testset ← call (DatasetNew "~/.pytorch/F_MNIST_data/" true false);
  _ ← call (SetGlobal "testset" testset);
  _ ← call (GetGlobal "testset");
  call (SetGlobal "testloader" (PyOpaque "DataLoader")).

(** Cell 3: show one image. *)
Definition cell3 : prog unit :=
  _ ← call (GetGlobal "trainloader");
  call (Display [PyOpaque "image"]).

(** Cell 4: the network, the criterion and the optimizer. *)
Definition cell4 : prog unit :=
  model ← call (NetworkNew (PyInt 784) (PyInt 10) (ints [512; 256; 128]));
  _ ← call (SetGlobal "model" (PyModule model));
  _ ← call (SetGlobal "criterion" (PyOpaque "NLLLoss"));
  _ ← call (GetGlobal "model");
  call (SetGlobal "optimizer" (PyOpaque "Adam")).

(** Cell 5: [fc_model.train(model, ..., epochs=2)]. *)
Definition cell5 : prog unit :=
  model ← call (GetGlobal "model");
  _ ← call (GetGlobal "trainloader");
  _ ← call (GetGlobal "testloader");
  _ ← call (GetGlobal "criterion");
  _ ← call (GetGlobal "optimizer");
  l ← lift (as_module model);
  call (Train l 2).

(** Cell 6: print the model and the keys of its state dict. *)
Definition cell6 : prog unit :=
  model ← call (GetGlobal "model");
  _ ← call (Display [PyStr "Our model: "; model]);
  model ← call (GetGlobal "model");
  l ← lift (as_module model);
  m ← call (Deref l);
  call (Display [PyStr "The state dict keys: ";
                 PyList (PyStr <$> (named_parameters m).*1)]).

(** Cell 7: [torch.save(model.state_dict(), "checkpoint.pth")]. *)
Definition cell7 : prog unit :=
  model ← call (GetGlobal "model");
  l ← lift (as_module model);
  m ← call (Deref l);
  call (TorchSave (PyDict (state_dict m)) "checkpoint.pth").

(** Cell 8: [state_dict = torch.load("checkpoint.pth")]. *)
Definition cell8 : prog unit :=
  state_dict ← call (TorchLoad "checkpoint.pth");
  _ ← call (SetGlobal "state_dict" state_dict);
  state_dict ← call (GetGlobal "state_dict");
  call (Display [state_dict]).

(** Cell 9: [model.load_state_dict(state_dict)]. *)
Definition cell9 : prog unit :=
  model ← call (GetGlobal "model");
  l ← lift (as_module model);
  state_dict ← call (GetGlobal "state_dict");
  call (LoadStateDict l state_dict).

(** Cell 10: the same into a network of other widths. *)
Definition cell10 : prog unit :=
  model ← call (NetworkNew (PyInt 784) (PyInt 10) (ints [400; 200; 100]));
  _ ← call (SetGlobal "model" (PyModule model));
  model ← call (GetGlobal "model");
  l ← lift (as_module model);
  state_dict ← call (GetGlobal "state_dict");
  call (LoadStateDict l state_dict).

(** The dictionary literal of cell 11. *)
Definition checkpoint_of (model : Network) : pyobj :=
  PyDict (list_to_map
    [("input_size", PyInt 784);
     ("output_size", PyInt 10);
     ("hidden_layers",
       PyList ((λ each, PyInt (Z.of_nat (out_features each)))
                 <$> hidden_layers model));
     ("state_dict", PyDict (state_dict model))]).

(** Cell 11: the save half of the helper. *)
Definition cell11 : prog unit :=
  model ← call (GetGlobal "model");
  l ← lift (as_module model);
  m ← call (Deref l);
  _ ← call (SetGlobal "checkpoint" (checkpoint_of m));
  checkpoint ← call (GetGlobal "checkpoint");
  call (TorchSave checkpoint "checkpoint.pth").

(** Cell 13: [model = load_checkpoint("checkpoint.pth")]. *)
Definition cell13 : prog unit :=
  model ← load_checkpoint "checkpoint.pth";
  _ ← call (SetGlobal "model" (PyModule model));
  model ← call (GetGlobal "model");
  call (Display [model]).

(** The code cells in the order of their execution counts; cell 12 only
    defines [load_checkpoint]. *)
Definition cells : list (prog unit) :=
  [cell1; cell2; cell3; cell4; cell5; cell6; cell7; cell8; cell9; cell10;
   cell11; cell13].

End Notebook6.

(** ** The cells of [3_Training_Neural_Networks.ipynb] *)

(** The cells as far as they act on the machine: the data set, the
    notebook's variables and what is printed.  The tensor computations in
    between (forward pass, loss, backward pass, optimizer step) work on
    objects in memory; the autograd cells and the training loop are modelled
    on their own below. *)
Module Notebook3.

Definition assign (x : string) (v : pyobj) : prog unit := call (SetGlobal x v).
Definition name (x : string) : prog pyobj := call (GetGlobal x).
Definition print (args : list pyobj) : prog unit := call (Display args).

(** [images, labels = next(iter(trainloader))] and the loss of the model. *)
Definition loss_of_batch : prog unit :=
  _ ← name "trainloader";
  _ ← assign "dataiter" (PyOpaque "iterator");
  _ ← name "dataiter";
  _ ← assign "images" (PyOpaque "Tensor");
  _ ← assign "labels" (PyOpaque "Tensor");
  _ ← name "images";
  _ ← assign "images" (PyOpaque "Tensor");
  _ ← name "model";
  _ ← name "images";
  _ ← assign "logits" (PyOpaque "Tensor");
  _ ← name "criterion";
  _ ← name "logits";
  _ ← name "labels";
  assign "loss" (PyOpaque "Tensor").

Definition cell1 : prog unit :=
  _ ← call (Import "torch");
  _ ← call (Import "torch");
  _ ← call (Import "torchvision");
  _ ← assign "transform" (PyOpaque "Compose");
  _ ← name "transform";
  trainset ← call (DatasetNew "~/.pytorch/MNIST_data/" true true);
  _ ← assign "trainset" trainset;
  _ ← name "trainset";
  assign "trainloader" (PyOpaque "DataLoader").

Definition cell2 : prog unit :=
  _ ← assign "model" (PyOpaque "Sequential");
  _ ← assign "criterion" (PyOpaque "CrossEntropyLoss");
  _ ← loss_of_batch;
  loss ← name "loss";
  print [loss].

Definition cell3 : prog unit :=
  _ ← assign "model" (PyOpaque "Sequential");
  _ ← assign "criterion" (PyOpaque "NLLLoss");
  _ ← loss_of_batch;
  loss ← name "loss";
  print [loss].

Definition cell4 : prog unit :=
  _ ← assign "x" (PyOpaque "Tensor");
  x ← name "x";
  print [x].

Definition cell5 : prog unit :=
  _ ← name "x";
  _ ← assign "y" (PyOpaque "Tensor");
  y ← name "y";
  print [y].

Definition cell6 : prog unit :=
  _ ← name "y";
  print [PyOpaque "PowBackward0"].

Definition cell7 : prog unit :=
  _ ← name "y";
  _ ← assign "z" (PyOpaque "Tensor");
  z ← name "z";
  print [z].

Definition cell8 : prog unit :=
  _ ← name "x";
  print [PyNone].

Definition cell9 : prog unit :=
  _ ← name "z";
  _ ← name "x";
  _ ← print [PyOpaque "Tensor"];
  _ ← name "x";
  _ ← name "x";
  print [PyOpaque "Tensor"].

Definition cell10 : prog unit :=
  _ ← assign "model" (PyOpaque "Sequential");
  _ ← assign "criterion" (PyOpaque "NLLLoss");
  loss_of_batch.

Definition cell11 : prog unit :=
  _ ← name "model";
  _ ← print [PyStr "Before backward pass: "; PyNone];
  _ ← name "loss";
  _ ← name "model";
  print [PyStr "After backward pass: "; PyOpaque "Tensor"].

Definition cell12 : prog unit :=
  _ ← call (Import "torch");
  _ ← name "model";
  assign "optimizer" (PyOpaque "SGD").

Definition cell13 : prog unit :=
  _ ← name "model";
  _ ← print [PyStr "Initial weights - "; PyOpaque "Parameter"];
  _ ← name "trainloader";
  _ ← assign "dataiter" (PyOpaque "iterator");
  _ ← name "dataiter";
  _ ← assign "images" (PyOpaque "Tensor");
  _ ← assign "labels" (PyOpaque "Tensor");
  _ ← name "images";
  _ ← name "optimizer";
  _ ← name "model";
  _ ← name "images";
  _ ← assign "output" (PyOpaque "Tensor");
  _ ← name "criterion";
  _ ← name "output";
  _ ← name "labels";
  _ ← assign "loss" (PyOpaque "Tensor");
  _ ← name "loss";
  _ ← name "model";
  print [PyStr "Gradient -"; PyOpaque "Tensor"].

Definition cell14 : prog unit :=
  _ ← name "optimizer";
  _ ← name "model";
  print [PyStr "Updated weights - "; PyOpaque "Parameter"].

(** One epoch of the training loop of cell 16, as printed. *)
Definition epoch : prog unit :=
  _ ← assign "running_loss" (PyInt 0);
  _ ← name "trainloader";
  _ ← name "running_loss";
  _ ← name "trainloader";
  print [PyStr "Training loss: "; PyOpaque "float"].

Definition cell16 : prog unit :=
  _ ← assign "model" (PyOpaque "Sequential");
  _ ← assign "criterion" (PyOpaque "NLLLoss");
  _ ← name "model";
  _ ← assign "optimizer" (PyOpaque "SGD");
  _ ← assign "epochs" (PyInt 5);
  _ ← name "epochs";
  _ ← epoch; _ ← epoch; _ ← epoch; _ ← epoch; epoch.

Definition cell17 : prog unit :=
  _ ← call (Magic "matplotlib inline");
  _ ← call (Import "helper");
  _ ← name "trainloader";
  _ ← assign "dataiter" (PyOpaque "iterator");
  _ ← name "dataiter";
  _ ← assign "images" (PyOpaque "Tensor");
  _ ← assign "labels" (PyOpaque "Tensor");
  _ ← name "images";
  _ ← assign "img" (PyOpaque "Tensor");
  _ ← name "model";
  _ ← name "img";
  _ ← assign "logps" (PyOpaque "Tensor");
  _ ← name "logps";
  _ ← assign "ps" (PyOpaque "Tensor");
  _ ← name "img";
  _ ← name "ps";
  print [PyOpaque "Figure"].

Definition cells : list (prog unit) :=
  [cell1; cell2; cell3; cell4; cell5; cell6; cell7; cell8; cell9; cell10;
   cell11; cell12; cell13; cell14; cell16; cell17].

End Notebook3.

(** Running cells one after the other.  A cell that raises stops there, with
    the effects it had so far, and the next cell is run on that state: the
    recorded notebook has cells 11 to 13 executed after cell 10 raised. *)
Fixpoint run_cells {W} (h : handler W) (cells : list (prog unit)) (w : W)
  : list (result unit) * W :=
  match cells with
  | [] => ([], w)
  | c :: cells' =>
      let '(r, w1, _) := run h c w in
      let '(rs, w2) := run_cells h cells' w1 in
      (r :: rs, w2)
  end.

(** ** What a call may write *)

(** The paths a call may write, as far as its arguments say: [torch.save]
    writes its file, a data set constructor with [download=True] writes at
    and below its root.  No other call of the cells takes a path to write
    to. *)
Definition may_write {X} (o : op X) (path : string) : Prop :=
  match o with
  | TorchSave _ f => path = f
  | DatasetNew root download _ =>
      download = true ∧ String.prefix root path = true
  | _ => False
  end.

Definition event_may_write (ev : event) (path : string) : Prop :=
  match ev with Event o _ => may_write o path end.

(** Every call the program can make writes within [allowed], as far as its
    arguments say. *)
Inductive writes_only (allowed : string → Prop) {A} : prog A → Prop :=
| writes_ret (a : A) : writes_only allowed (Ret a)
| writes_raise (e : exn) : writes_only allowed (Raise e)
| writes_call {X} (o : op X) (k : X → prog A) :
    (∀ path, may_write o path → allowed path) →
    (∀ x, writes_only allowed (k x)) →
    writes_only allowed (Call o k).

(** A framework, on any kind of machine, whose calls write where their
    arguments say and, on their own account, in [ambient] places (caches,
    logs) only: a call leaves every other path as it was.  [files] reads the
    file system of the machine. *)
Definition respects {W F} (h : handler W) (files : W → string → option F)
    (ambient : string → Prop) : Prop :=
  ∀ X (o : op X) (w : W) (path : string),
    ¬ may_write o path → ¬ ambient path →
    files (h X o w).2 path = files w path.

(** A machine on which nothing was run yet. *)
Definition clean (r : nat → float32) : world := World ∅ ∅ r ∅.

(** ** Reading a run *)

Definition outcome {A W} (x : result A * W * list event) : result A := x.1.1.
Definition final {A W} (x : result A * W * list event) : W := x.1.2.
Definition calls {A W} (x : result A * W * list event) : list event := x.2.

(** The function a call went to. *)
Definition callee (ev : event) : string :=
  match ev with
  | Event o _ =>
      match o with
      | TorchSave _ _ => "torch.save"
      | TorchLoad _ => "torch.load"
      | LoadStateDict _ _ => "load_state_dict"
      | Deref _ => "getattr"
      | NetworkNew _ _ _ => "fc_model.Network"
      | Train _ _ => "fc_model.train"
      | DatasetNew _ _ _ => "torchvision.datasets"
      | Display _ => "print"
      | GetGlobal _ => "global"
      | SetGlobal _ _ => "global="
      | Import _ => "import"
      | Magic _ => "magic"
      end
  end.

(** The exception a call raised, if it raised. *)
Definition raised (ev : event) : option exn :=
  match ev with
  | Event _ (Err e) => Some e
  | Event _ (Ok _) => None
  end.

(** The object a [torch.load] call returned. *)
Definition loaded (ev : event) : option pyobj :=
  match ev with
  | Event o r =>
      match o in op X return result X → option pyobj with
      | TorchLoad _ => λ r, match r with Ok v => Some v | Err _ => None end
      | _ => λ _, None
      end r
  end.

(** The first exception among subscripts evaluated from left to right. *)
Fixpoint first_error (obj : pyobj) (keys : list string) : option exn :=
  match keys with
  | [] => None
  | k :: keys' =>
      match getitem obj k with
      | Ok _ => first_error obj keys'
      | Err e => Some e
      end
  end.

(** ** Architectures and consistent state dicts *)

(** What [load_state_dict] looks at in a layer. *)
Definition Linear_arch (l : Linear) : nat * nat * list nat * list nat :=
  (in_features l, out_features l, shape (weight l), shape (bias l)).

Definition arch (m : Network)
  : list (nat * nat * list nat * list nat) * (nat * nat * list nat * list nat) * Q :=
  (Linear_arch <$> hidden_layers m, Linear_arch (output m), dropout m).

Definition layer_spec (i o : nat) : nat * nat * list nat * list nat :=
  (i, o, [o; i], [o]).

Fixpoint hidden_spec (i : nat) (hs : list nat)
  : list (nat * nat * list nat * list nat) :=
  match hs with
  | [] => []
  | h :: hs' => layer_spec i h :: hidden_spec h hs'
  end.

(** [m] is a [Network(input_size, output_size, hidden)], with whatever
    parameter values. *)
Definition is_Network (input_size output_size : nat) (hidden : list nat)
    (m : Network) : Prop :=
  hidden ≠ [] ∧
  arch m = (hidden_spec input_size hidden,
            layer_spec (default input_size (last hidden)) output_size,
            1 # 2).

Definition input_size (m : Network) : option nat :=
  in_features <$> head (hidden_layers m).
Definition output_size (m : Network) : nat := out_features (output m).
Definition widths (m : Network) : list nat :=
  out_features <$> hidden_layers m.

(** Every module on the machine is a [Network] of some configuration. *)
Definition networks_only (heap : gmap loc Network) : Prop :=
  ∀ l m, heap !! l = Some m → ∃ i o hs, is_Network i o hs m.

(** The state dict has a tensor of the parameter's shape under its name. *)
Definition fits (sd : gmap string pyobj) (kp : string * tensor) : Prop :=
  ∃ t, sd !! kp.1 = Some (PyTensor t) ∧ shape t = shape kp.2.

(** The state dict has the names of the network's parameters and no others,
    each with a tensor of the parameter's shape. *)
Definition consistent (sd : gmap string pyobj) (m : Network) : Prop :=
  dom sd = list_to_set (named_parameters m).*1
  ∧ Forall (fits sd) (named_parameters m).

(** Names and shapes of parameters. *)
Definition shapes (ps : list (string * tensor)) : list (string * list nat) :=
  prod_map id shape <$> ps.

(** The messages for tensors that do not have the shape of the parameter
    at the same position. *)
Fixpoint size_mismatches (from_checkpoint in_model : list (string * list nat))
  : list error_msg :=
  match from_checkpoint, in_model with
  | (k, t) :: ts, (_, p) :: ps =>
      (if decide (t = p) then [] else [SizeMismatch k t p])
      ++ size_mismatches ts ps
  | _, _ => []
  end.

(** A string without a dot, as the decimal numerals are. *)
Fixpoint dotless (s : string) : Prop :=
  match s with
  | EmptyString => True
  | String a s' => a ≠ "."%char ∧ dotless s'
  end.

(** ** Autograd (notebook 3, cells 4 to 9) *)

Module Autograd.

(** Tensor arithmetic, entry by entry, in float32. *)
Definition pow (t : tensor) (n : nat) : tensor :=
  Tensor (shape t) (λ i, Float32.pow (storage t i) n).
Definition mul (a b : tensor) : tensor :=
  Tensor (shape a) (λ i, Float32.mul (storage a i) (storage b i)).
Definition add (a b : tensor) : tensor :=
  Tensor (shape a) (λ i, Float32.add (storage a i) (storage b i)).
Definition mul_scalar (c : float32) (t : tensor) : tensor :=
  Tensor (shape t) (λ i, Float32.mul c (storage t i)).
Definition div_scalar (t : tensor) (c : float32) : tensor :=
  Tensor (shape t) (λ i, Float32.div (storage t i) c).
Definition zeros_like (t : tensor) : tensor :=
  Tensor (shape t) (λ _, Finite 0).

(** A Python int among float32 tensors. *)
Definition count (n : nat) : float32 := Float32.of_nat n.

(** The entries added up one after the other.  The framework adds them in
    an order of its own; the value is the tensor [z] of cell 7 and no
    gradient depends on it. *)
Definition sum (t : tensor) : float32 :=
  foldr Float32.add (Finite 0) (storage t <$> seq 0 (numel t)).

(** [t.mean()]: a tensor without dimensions. *)
Definition mean (t : tensor) : tensor :=
  Tensor [] (λ _, Float32.div (sum t) (count (numel t))).

(** [t.expand(sizes)] for a tensor without dimensions. *)
Definition expand (t : tensor) (sizes : list nat) : tensor :=
  Tensor sizes (λ _, storage t 0).

(** The node that made a tensor, with what it saved for the backward
    pass: the graph printed as [grad_fn]. *)
Inductive grad_fn :=
| AccumulateGrad (leaf : nat)
| PowBackward0 (next : grad_fn) (self : tensor) (exponent : nat)
| MeanBackward0 (next : grad_fn) (self_sizes : list nat).

(** The node keeps a tensor for its backward pass. *)
Fixpoint saves_tensors (g : grad_fn) : bool :=
  match g with
  | AccumulateGrad _ => false
  | PowBackward0 _ _ _ => true
  | MeanBackward0 next _ => saves_tensors next
  end.

(** A tensor with its history; a leaf that requires grad accumulates into
    its [grad].  A backward pass frees the tensors the graph kept
    ([freed]). *)
Record variable :=
  MkVariable { data : tensor; fn : option grad_fn; freed : bool }.

(** [torch.randn(..., requires_grad=True)]: leaf number [leaf]. *)
Definition leaf_variable (leaf : nat) (values : tensor) : variable :=
  MkVariable values (Some (AccumulateGrad leaf)) false.

(** [x ** n] *)
Definition var_pow (x : variable) (n : nat) : variable :=
  MkVariable (pow (data x) n) ((λ g, PowBackward0 g (data x) n) <$> fn x)
    (freed x).

(** [y.mean()] *)
Definition var_mean (y : variable) : variable :=
  MkVariable (mean (data y)) ((λ g, MeanBackward0 g (shape (data y))) <$> fn y)
    (freed y).

(** Modelled from the spec: backpropagation is the framework's automatic
    differentiation.  Each node multiplies the incoming gradient with the
    gradient of its operation, as the notebook describes it: the mean
    spreads the gradient over the entries and divides by their number, the
    power [n] multiplies by [n * self ** (n - 1)], a leaf accumulates into
    its [grad].  The map holds the [grad] attributes of the leaves; a leaf
    without entry has [grad = None]. *)
Fixpoint backward_fn (g : grad_fn) (grad : tensor) (grads : gmap nat tensor)
  : gmap nat tensor :=
  match g with
  | AccumulateGrad leaf =>
      match grads !! leaf with
      | None => <[leaf := grad]> grads
      | Some old => <[leaf := add old grad]> grads
      end
  | PowBackward0 next self exponent =>
      backward_fn next
        (match exponent with
         | 0 => zeros_like grad
         | S n => mul grad (mul_scalar (count exponent) (pow self n))
         end) grads
  | MeanBackward0 next self_sizes =>
      backward_fn next
        (div_scalar (expand grad self_sizes) (count (foldr Nat.mul 1 self_sizes)))
        grads
  end.

(** [z.backward()], for a scalar [z]: the [grad] attributes and [z]
    afterwards.  A second pass through a graph whose tensors were freed
    raises. *)
Definition backward (z : variable) (grads : gmap nat tensor)
  : result (gmap nat tensor * variable) :=
  match fn z with
  | None => Err (RuntimeError [Message "does not require grad"])
  | Some g =>
      if decide (numel (data z) = 1) then
        if freed z && saves_tensors g then
          Err (RuntimeError
                 [Message "Trying to backward through the graph a second time"])
        else
          Ok (backward_fn g (Tensor (shape (data z)) (λ _, Finite 1)) grads,
              MkVariable (data z) (fn z) true)
      else Err (RuntimeError [Message "grad can be implicitly created only for scalar outputs"])
  end.

(** Cells 4, 5 and 7. *)
Definition x (values : tensor) : variable := leaf_variable 0 values.
Definition y (values : tensor) : variable := var_pow (x values) 2.
Definition z (values : tensor) : variable := var_mean (y values).

(** Cell 8 and the first print of cell 9: [x.grad]. *)
Definition x_grad (grads : gmap nat tensor) : option tensor := grads !! 0.

(** The second print of cell 9: [2 * x / torch.numel(x)]. *)
Definition analytic (values : tensor) : tensor :=
  div_scalar (mul_scalar (count 2) values) (count (numel values)).

(** The gradient as the backward pass computes it, entry by entry: the
    mean's node divides the incoming 1 by the number of entries, the
    power's node multiplies by [2 * x ** 1]. *)
Definition chain_rule (values : tensor) : tensor :=
  Tensor (shape values)
    (λ i, Float32.mul (Float32.div (Finite 1) (count (numel values)))
            (Float32.mul (count 2) (storage values i))).

(** Two tensors are equal: same shape, the same number at every index. *)
Definition tensor_eq (a b : tensor) : Prop :=
  shape a = shape b
  ∧ Forall (λ i, Float32.same (storage a i) (storage b i) = true)
      (seq 0 (numel a)).

End Autograd.

(** ** The training loop (notebook 3, cell 16) *)

Module TrainingLoop.

(** How an iteration of a loop body ends. *)
Inductive flow := Next | Break.

(** Python's [for x in items: body else: orelse]: the [else] suite runs
    when the loop ends without [break]. *)
Fixpoint for_else {St X} (items : list X) (body : X → St → St * flow)
    (orelse : St → result St) (s : St) : result St :=
  match items with
  | [] => orelse s
  | x :: items' =>
      match body x s with
      | (s', Next) => for_else items' body orelse s'
      | (s', Break) => Ok s'
      end
  end.

(** [for i in range(n): body] *)
Fixpoint for_range {St} (i n : nat) (body : nat → St → result St) (s : St)
  : result St :=
  match n with
  | 0 => Ok s
  | S n' =>
      match body i s with
      | Ok s' => for_range (S i) n' body s'
      | Err e => Err e
      end
  end.

(** [len(trainloader)] in a division of Python floats. *)
Definition count (n : nat) : Q := inject_Z (Z.of_nat n).

Section Loop.

(** The model with its optimizer, and a batch of images and labels. *)
Context {model batch : Type}.

(** The training pass of the loop body: forward pass, loss, backward
    pass, optimizer step, zeroing the gradients; it gives the updated
    model and [loss.item()]. *)
Variable training_pass : model → batch → model * Q.

(** The batches the loader yields when iterated in a given epoch
    ([shuffle=True]), and [len(trainloader)]. *)
Variable trainloader : nat → list batch.
Variable len_trainloader : nat.

Record state := State
  { net : model; running_loss : Q; stdout : list Q }.

Definition loop_body (b : batch) (s : state) : state * flow :=
  let '(m, loss) := training_pass (net s) b in
  (State m (running_loss s + loss)%Q (stdout s), Next).

(** [print(f"Training loss: {running_loss / len(trainloader)}")] *)
Definition print_loss (s : state) : result state :=
  if decide (len_trainloader = 0) then Err ZeroDivisionError
  else Ok (State (net s) (running_loss s)
             (stdout s ++ [running_loss s / count len_trainloader]%Q)).

Definition epoch (e : nat) (s : state) : result state :=
  for_else (trainloader e) loop_body print_loss
    (State (net s) 0%Q (stdout s)).

Definition epochs : nat := 5.

Definition training (s : state) : result state := for_range 0 epochs epoch s.

(** The losses of the passes over some batches, and the model after
    them. *)
Fixpoint losses (m : model) (bs : list batch) : list Q :=
  match bs with
  | [] => []
  | b :: bs' => (training_pass m b).2 :: losses (training_pass m b).1 bs'
  end.

Definition after_batches (m : model) (bs : list batch) : model :=
  foldl (λ m b, (training_pass m b).1) m bs.

(** The model at the start of epoch [e]. *)
Fixpoint model_at (m : model) (e : nat) : model :=
  match e with
  | 0 => m
  | S e' => after_batches (model_at m e') (trainloader e')
  end.

(** The average the epoch prints: the losses of this epoch alone. *)
Definition average_loss (m : model) (e : nat) : Q :=
  (foldl Qplus 0 (losses (model_at m e) (trainloader e))
   / count len_trainloader)%Q.

End Loop.

Arguments state : clear implicits.

End TrainingLoop.

(** ** Sample states *)

Definition zeros : nat → float32 := λ _, Finite 0.
Definition ones : nat → float32 := λ _, Finite 1.

(** The cells up to the first save (cell 7), and up to the save half of the
    helper (cell 11), run on a clean machine. *)
Definition after_cell7 : world :=
  (run_cells torch (take 7 Notebook6.cells) (clean zeros)).2.
Definition after_cell11 : world :=
  (run_cells torch (take 11 Notebook6.cells) (clean zeros)).2.

(** A trained [Network(784, 10, [2])] bound to [model]. *)
Definition sample_network : Network :=
  MkNetwork [MkLinear 784 2 (Tensor [2; 784] ones) (Tensor [2] ones)]
            (MkLinear 2 10 (Tensor [10; 2] ones) (Tensor [10] ones)) (1 # 2).
Definition sample_world (r : nat → float32) : world :=
  World ∅ {[0 := sample_network]} r {["model" := PyModule 0]}.

(** The same after the save half of the helper was run. *)
Definition saved_world (r : nat → float32) : world :=
  final (run torch Notebook6.cell11 (sample_world r)).

(** A [Network(784, 10, [a, b, c])] with the given parameter values. *)
Definition three_layers (a b c : nat) (r : nat → float32) : Network :=
  MkNetwork [MkLinear 784 a (Tensor [a; 784] r) (Tensor [a] r);
             MkLinear a b (Tensor [b; a] r) (Tensor [b] r);
             MkLinear b c (Tensor [c; b] r) (Tensor [c] r)]
            (MkLinear c 10 (Tensor [10; c] r) (Tensor [10] r)) (1 # 2).

(** A [Network(4, 2, [3])] bound to [model]. *)
Definition small_network : Network :=
  MkNetwork [MkLinear 4 3 (Tensor [3; 4] ones) (Tensor [3] ones)]
            (MkLinear 3 2 (Tensor [2; 3] ones) (Tensor [2] ones)) (1 # 2).
Definition small_world : world :=
  World ∅ {[0 := small_network]} zeros {["model" := PyModule 0]}.

(** A [Network(784, 10, [a, b, c, d])] with the given parameter values. *)
Definition four_layers (a b c d : nat) (r : nat → float32) : Network :=
  MkNetwork [MkLinear 784 a (Tensor [a; 784] r) (Tensor [a] r);
             MkLinear a b (Tensor [b; a] r) (Tensor [b] r);
             MkLinear b c (Tensor [c; b] r) (Tensor [c] r);
             MkLinear c d (Tensor [d; c] r) (Tensor [d] r)]
            (MkLinear d 10 (Tensor [10; d] r) (Tensor [10] r)) (1 # 2).

(** The tensor of the float32 numbers nearest 0.1, 0.7 and 1.3. *)
Definition tenths : tensor :=
  Tensor [3] (λ i, match i with
                   | 0 => Float32.round (1 # 10)
                   | 1 => Float32.round (7 # 10)
                   | _ => Float32.round (13 # 10)
                   end).

(** A 2 by 2 tensor, as the tensor [x] of cell 4 is. *)
Definition two_by_two : tensor :=
  Tensor [2; 2] (λ i, match i with
                      | 0 => Float32.round (1 # 10)
                      | 1 => Float32.round (7 # 10)
                      | 2 => Float32.round (13 # 10)
                      | _ => Float32.round (- 5 # 2)
                      end).

(** A machine whose interpreter keeps the code of an imported module in a
    cache file, as Python does for the modules next to the notebook. *)
Definition cache_of (module : string) : string :=
  "__pycache__/" +:+ module +:+ ".pyc".

Definition caching : handler world := λ X o,
  match o in op X return world → result X * world with
  | Import module => λ w,
      (Ok (),
       World (<[cache_of module := Pickle (PyOpaque "code")]> (fs w)) (heap w)
         (random w) (globals w))
  | o' => torch _ o'
  end.

(** * Proofs *)

(** ** Running programs *)

Ltac unfold_prog :=
  unfold call, lift, mbind, prog_mbind, mret, prog_ret in *; cbn in *.

Ltac in_calls H :=
  repeat first [ apply elem_of_cons in H as [->|H]
               | apply elem_of_nil in H; destruct H ].

Lemma run_bind {W A B} (h : handler W) (p : prog A) (f : A → prog B) w :
  run h (p ≫= f) w =
  match run h p w with
  | (Ok a, w1, tr) =>
      let '(r, w2, tr2) := run h (f a) w1 in (r, w2, tr ++ tr2)
  | (Err e, w1, tr) => (Err e, w1, tr)
  end.
Proof.
  revert w. induction p as [a|e|X o k IH]; intros w; unfold_prog.
  - by destruct (run h (f a) w) as [[r w2] tr2].
  - done.
  - destruct (h X o w) as [[x|e] w1]; [|done].
    specialize (IH x w1). unfold_prog. rewrite IH.
    destruct (run h (k x) w1) as [[[a|e] w2] tr]; [|done].
    by destruct (run h (f a) w2) as [[r w3] tr2].
Qed.

(** Two results of one computation are the same. *)
Ltac unify_results :=
  repeat match goal with
         | H : ?x = _, H' : ?x = _ |- _ => rewrite H in H'; simplify_eq
         end.

(** ** Parameter names are distinct *)

Lemma append_cons a s t : String a s +:+ t = String a (s +:+ t).
Proof. reflexivity. Qed.

Lemma append_assoc s t u : (s +:+ t) +:+ u = s +:+ (t +:+ u).
Proof. induction s as [|a s IH]; [done|]. by rewrite !append_cons, IH. Qed.

Lemma append_nil_r s : s +:+ "" = s.
Proof. induction s as [|a s IH]; [done|]. by rewrite append_cons, IH. Qed.

Lemma dotless_append s t : dotless s → dotless t → dotless (s +:+ t).
Proof.
  induction s as [|a s IH]; [done|]. rewrite append_cons.
  intros [Ha Hs] Ht. split; [done|]. by apply IH.
Qed.

Lemma dotless_split d1 d2 s1 s2 :
  dotless d1 → dotless d2 →
  d1 +:+ String "." s1 = d2 +:+ String "." s2 → d1 = d2 ∧ s1 = s2.
Proof.
  revert d2. induction d1 as [|a d1 IH]; intros [|b d2] H1 H2 Heq.
  - by injection Heq as ->.
  - injection Heq as <- _. by destruct H2.
  - injection Heq as -> _. by destruct H1.
  - injection Heq as -> Heq. destruct H1 as [_ H1], H2 as [_ H2].
    by destruct (IH d2 H1 H2 Heq) as [-> ->].
Qed.

Lemma pretty_N_char_dotless x : pretty_N_char x ≠ "."%char.
Proof. unfold pretty_N_char. by repeat case_match. Qed.

Lemma pretty_N_go_dotless x s : ∃ d, pretty_N_go x s = d +:+ s ∧ dotless d.
Proof.
  revert s. induction (N.lt_wf_0 x) as [x _ IH]; intros s.
  destruct (decide (x = 0)%N) as [->|].
  { exists "". by rewrite pretty_N_go_0. }
  rewrite pretty_N_go_step by lia.
  destruct (IH (x `div` 10)%N) with (s := String (pretty_N_char (x `mod` 10)) s)
    as (d & -> & Hd); [apply N.div_lt; lia|].
  exists (d +:+ String (pretty_N_char (x `mod` 10)) ""). split.
  - by rewrite append_assoc.
  - apply dotless_append; [done|]. split; [apply pretty_N_char_dotless|done].
Qed.

Lemma pretty_nat_dotless (i : nat) : dotless (pretty i).
Proof.
  unfold pretty, pretty_nat, pretty, pretty_N. case_decide.
  - split; [discriminate|done].
  - destruct (pretty_N_go_dotless (N.of_nat i) "") as (d & -> & Hd).
    by rewrite append_nil_r.
Qed.

Lemma hidden_key i s :
  hidden_prefix i +:+ s = "hidden_layers." +:+ pretty i +:+ String "." s.
Proof. unfold hidden_prefix. by rewrite !append_assoc. Qed.

Lemma hidden_key_inj i j s t :
  hidden_prefix i +:+ s = hidden_prefix j +:+ t → i = j ∧ s = t.
Proof.
  rewrite !hidden_key. intros H%(inj (String.app _)).
  apply dotless_split in H as [H ->]; auto using pretty_nat_dotless.
  by apply (inj pretty) in H.
Qed.

Lemma hidden_key_not_output i s t : hidden_prefix i +:+ s ≠ "output." +:+ t.
Proof. rewrite hidden_key. by intros [=]. Qed.

Lemma hidden_parameters_keys i ls k :
  k ∈ (hidden_parameters i ls).*1 →
  ∃ j s, (i ≤ j)%nat ∧ k = hidden_prefix j +:+ s.
Proof.
  revert i. induction ls as [|l ls IH]; intros i Hk; cbn in Hk.
  { by apply elem_of_nil in Hk. }
  apply elem_of_cons in Hk as [->|Hk]; [by exists i, "weight"|].
  apply elem_of_cons in Hk as [->|Hk]; [by exists i, "bias"|].
  destruct (IH _ Hk) as (j & s & ? & ->). exists j, s. split; [lia|done].
Qed.

Lemma hidden_parameters_NoDup i ls : NoDup (hidden_parameters i ls).*1.
Proof.
  revert i. induction ls as [|l ls IH]; intros i; cbn; [constructor|].
  constructor; [|constructor; [|apply IH]].
  - intros Hk. apply elem_of_cons in Hk as [Hk|Hk].
    + by apply hidden_key_inj in Hk as [_ [=]].
    + apply hidden_parameters_keys in Hk as (j & s & ? & [? _]%hidden_key_inj).
      lia.
  - intros (j & s & ? & [? _]%hidden_key_inj)%hidden_parameters_keys. lia.
Qed.

Lemma named_parameters_NoDup m : NoDup (named_parameters m).*1.
Proof.
  unfold named_parameters. rewrite fmap_app. apply NoDup_app. split_and!.
  - apply hidden_parameters_NoDup.
  - intros k (j & s & _ & ->)%hidden_parameters_keys Hk. cbn in Hk.
    apply elem_of_cons in Hk as [Hk|Hk]; [by apply hidden_key_not_output in Hk|].
    apply elem_of_cons in Hk as [Hk|Hk]; [by apply hidden_key_not_output in Hk|].
    by apply elem_of_nil in Hk.
  - cbn. constructor; [|constructor; [|constructor]].
    + intros Hk. apply elem_of_cons in Hk as [[=]|Hk]. by apply elem_of_nil in Hk.
    + apply not_elem_of_nil.
Qed.

(** The names depend on the number of hidden layers only. *)
Lemma hidden_parameters_names i ls1 ls2 :
  length ls1 = length ls2 →
  (hidden_parameters i ls1).*1 = (hidden_parameters i ls2).*1.
Proof.
  revert i ls2. induction ls1 as [|l1 ls1 IH]; intros i [|l2 ls2] [=]; cbn;
    [done|]. by rewrite (IH (S i) ls2).
Qed.

Lemma named_parameters_names m1 m2 :
  length (hidden_layers m1) = length (hidden_layers m2) →
  (named_parameters m1).*1 = (named_parameters m2).*1.
Proof.
  intros H. unfold named_parameters. rewrite !fmap_app.
  by rewrite (hidden_parameters_names 0 _ _ H).
Qed.

(** ** [state_dict] *)

Lemma state_dict_lookup m k t :
  (k, t) ∈ named_parameters m → state_dict m !! k = Some (PyTensor t).
Proof.
  intros H. unfold state_dict. apply elem_of_list_to_map_1.
  - rewrite <-list_fmap_compose.
    replace (fst ∘ prod_map id PyTensor) with (@fst string tensor); [|done].
    apply named_parameters_NoDup.
  - apply list_elem_of_fmap. by exists (k, t).
Qed.

Lemma state_dict_dom m :
  dom (state_dict m) = list_to_set (named_parameters m).*1.
Proof.
  unfold state_dict. rewrite dom_list_to_map_L. f_equal.
  by rewrite <-list_fmap_compose.
Qed.

(** ** [load_state_dict] *)

Lemma join_findings_clean a b :
  join_findings a b = clean_findings ↔ a = clean_findings ∧ b = clean_findings.
Proof.
  destruct a as [a1 a2], b as [b1 b2]. unfold join_findings, clean_findings.
  cbn. split.
  - intros [= [-> ->]%app_eq_nil [-> ->]%app_eq_nil]. done.
  - by intros [[= -> ->] [= -> ->]].
Qed.

Lemma load_param_clean sd k p :
  (load_param sd k p).2 = clean_findings ↔ fits sd (k, p).
Proof.
  unfold load_param, fits. cbn. split.
  - repeat case_match; try done. intros _. by eexists.
  - intros (t & Hl & Ht). cbn in *. by rewrite Hl, decide_True.
Qed.

Lemma load_param_value sd k p :
  fits sd (k, p) → sd !! k = Some (PyTensor (load_param sd k p).1).
Proof.
  unfold load_param. intros (t & Hl & Ht). cbn in *. by rewrite Hl, decide_True.
Qed.

(** Loading looks at the shape of a parameter only. *)
Lemma load_param_shape sd k p1 p2 :
  shape p1 = shape p2 →
  (load_param sd k p1).2 = (load_param sd k p2).2
  ∧ ((load_param sd k p1).2 = clean_findings →
     (load_param sd k p1).1 = (load_param sd k p2).1).
Proof.
  unfold load_param. intros ->. repeat case_match; simplify_eq; done.
Qed.

Lemma load_linear_clean sd prefix l :
  (load_linear sd prefix l).2 = clean_findings ↔
  Forall (fits sd) (layer_parameters prefix l).
Proof.
  unfold load_linear, layer_parameters.
  rewrite !Forall_cons, Forall_nil, <-!load_param_clean.
  repeat case_match. cbn. rewrite join_findings_clean. tauto.
Qed.

Lemma load_linear_arch sd prefix l1 l2 :
  Linear_arch l1 = Linear_arch l2 →
  (load_linear sd prefix l1).2 = (load_linear sd prefix l2).2
  ∧ ((load_linear sd prefix l1).2 = clean_findings →
     (load_linear sd prefix l1).1 = (load_linear sd prefix l2).1).
Proof.
  unfold Linear_arch, load_linear. intros [= Hi Ho Hw Hb].
  destruct (load_param_shape sd (prefix +:+ "weight") _ _ Hw) as [Hw1 Hw2].
  destruct (load_param_shape sd (prefix +:+ "bias") _ _ Hb) as [Hb1 Hb2].
  repeat case_match. cbn in *. simplify_eq. split; [done|].
  intros [-> ->]%join_findings_clean. by rewrite Hi, Ho, Hw2, Hb2.
Qed.

Lemma load_linear_self sd prefix l :
  (∀ k t, (k, t) ∈ layer_parameters prefix l → sd !! k = Some (PyTensor t)) →
  load_linear sd prefix l = (l, clean_findings).
Proof.
  intros H. unfold load_linear, load_param.
  rewrite (H _ (weight l)), (H _ (bias l)), !decide_True by (done || set_solver).
  by destruct l.
Qed.

Lemma load_hidden_clean sd i ls :
  (load_hidden sd i ls).2 = clean_findings ↔
  Forall (fits sd) (hidden_parameters i ls).
Proof.
  revert i. induction ls as [|l ls IH]; intros i;
    cbn [load_hidden hidden_parameters]; [done|].
  rewrite Forall_app, <-IH, <-load_linear_clean.
  repeat case_match. cbn. by rewrite join_findings_clean.
Qed.

Lemma load_hidden_arch sd i ls1 ls2 :
  Linear_arch <$> ls1 = Linear_arch <$> ls2 →
  (load_hidden sd i ls1).2 = (load_hidden sd i ls2).2
  ∧ ((load_hidden sd i ls1).2 = clean_findings →
     (load_hidden sd i ls1).1 = (load_hidden sd i ls2).1).
Proof.
  revert i ls2. induction ls1 as [|l1 ls1 IH]; intros i [|l2 ls2] Heq;
    try discriminate; [done|].
  rewrite !fmap_cons in Heq.
  assert (Linear_arch l1 = Linear_arch l2) as Hl by congruence.
  assert (Linear_arch <$> ls1 = Linear_arch <$> ls2) as Hls by congruence.
  destruct (load_linear_arch sd (hidden_prefix i) l1 l2 Hl) as [H1 H2].
  destruct (IH (S i) ls2 Hls) as [H3 H4]. cbn.
  repeat case_match. cbn in *. simplify_eq. split; [done|].
  intros [-> ->]%join_findings_clean. by rewrite H2, H4.
Qed.

Lemma load_hidden_self sd i ls :
  (∀ k t, (k, t) ∈ hidden_parameters i ls → sd !! k = Some (PyTensor t)) →
  load_hidden sd i ls = (ls, clean_findings).
Proof.
  revert i. induction ls as [|l ls IH]; intros i H;
    cbn [load_hidden hidden_parameters] in *; [done|].
  rewrite load_linear_self, IH; [done|..].
  - intros k t Hk. apply H. set_solver.
  - intros k t Hk. apply H. set_solver.
Qed.

Lemma load_network_clean sd m :
  (load_network sd m).2 = clean_findings ↔
  Forall (fits sd) (named_parameters m).
Proof.
  unfold load_network, named_parameters.
  rewrite Forall_app, <-load_hidden_clean, <-load_linear_clean.
  repeat case_match. cbn. by rewrite join_findings_clean.
Qed.

Lemma load_network_arch sd m1 m2 :
  arch m1 = arch m2 →
  (load_network sd m1).2 = (load_network sd m2).2
  ∧ ((load_network sd m1).2 = clean_findings →
     (load_network sd m1).1 = (load_network sd m2).1).
Proof.
  unfold arch, load_network. intros Heq.
  assert (Linear_arch <$> hidden_layers m1 = Linear_arch <$> hidden_layers m2)
    as Hh by congruence.
  assert (Linear_arch (output m1) = Linear_arch (output m2)) as Ho
    by congruence.
  assert (dropout m1 = dropout m2) as Hd by congruence. clear Heq.
  destruct (load_hidden_arch sd 0 _ _ Hh) as [H1 H2].
  destruct (load_linear_arch sd "output." _ _ Ho) as [H3 H4].
  repeat case_match. cbn in *. simplify_eq. split; [done|].
  intros [-> ->]%join_findings_clean. by rewrite H2, H4, Hd.
Qed.

Lemma load_network_self m : load_network (state_dict m) m = (m, clean_findings).
Proof.
  unfold load_network.
  rewrite load_hidden_self, load_linear_self; [by destruct m|..].
  - intros k t Hk. apply state_dict_lookup. unfold named_parameters. set_solver.
  - intros k t Hk. apply state_dict_lookup. unfold named_parameters. set_solver.
Qed.

Lemma filter_nil_Forall {A} (P : A → Prop) `{!∀ x, Decision (P x)} (l : list A) :
  filter P l = [] ↔ Forall (λ x, ¬ P x) l.
Proof.
  induction l as [|x l IH]; [done|]. rewrite filter_cons, Forall_cons.
  case_decide; [|tauto]. split; [done|tauto].
Qed.

Lemma unexpected_keys_nil sd m :
  unexpected_keys sd m = [] ↔ dom sd ⊆ list_to_set (named_parameters m).*1.
Proof.
  unfold unexpected_keys. rewrite filter_nil_Forall, Forall_forall. split.
  - intros H k [v Hk]%elem_of_dom. apply (elem_of_list_to_set (C:=gset string)).
    destruct (decide (k ∈ (named_parameters m).*1)) as [|Hn]; [done|].
    destruct (H k); [|done].
    apply list_elem_of_fmap. exists (k, v). split; [done|].
    by apply elem_of_map_to_list.
  - intros H k [[k' v] [-> Hk%elem_of_map_to_list]]%list_elem_of_fmap Hn.
    apply Hn. cbn. apply (elem_of_list_to_set (C:=gset string)).
    apply H, elem_of_dom. by eexists.
Qed.

Lemma fits_dom sd m :
  Forall (fits sd) (named_parameters m) →
  list_to_set (named_parameters m).*1 ⊆ dom sd.
Proof.
  rewrite Forall_forall.
  intros H k [[k' p] [-> Hk]]%(elem_of_list_to_set (C:=gset string))%list_elem_of_fmap.
  destruct (H _ Hk) as (t & Ht & _). apply elem_of_dom. by eexists.
Qed.

(** The call succeeds exactly on the consistent state dicts. *)
Lemma load_state_dict_ok sd m :
  (load_state_dict m (PyDict sd)).2 = Ok () ↔ consistent sd m.
Proof.
  unfold load_state_dict, consistent.
  pose proof (load_network_clean sd m) as Hc.
  pose proof (unexpected_keys_nil sd m) as Hu.
  destruct (load_network sd m) as [m' [msgs missing]]. cbn in *.
  unfold clean_findings in Hc. split.
  - destruct missing, (unexpected_keys sd m), msgs; try done. intros _.
    assert (Forall (fits sd) (named_parameters m)) as Hf by by apply Hc.
    split; [|done]. apply (anti_symm (⊆)); [by apply Hu|by apply fits_dom].
  - intros [Hd Hf]. apply Hc in Hf as [= -> ->].
    rewrite (proj2 Hu); [done|]. by rewrite Hd.
Qed.

(** An error of the call is a [RuntimeError], with a message. *)
Lemma load_state_dict_err sd m e :
  (load_state_dict m (PyDict sd)).2 = Err e →
  ∃ msg msgs, e = RuntimeError (msg :: msgs).
Proof.
  unfold load_state_dict. destruct (load_network sd m) as [m' [msgs missing]].
  cbn. case_match; [done|]. intros [= <-]. by eexists _, _.
Qed.

(** The outcome, and on success the module, depend on the architecture alone. *)
Lemma load_state_dict_arch sd m1 m2 :
  arch m1 = arch m2 →
  (load_state_dict m1 sd).2 = (load_state_dict m2 sd).2
  ∧ ((load_state_dict m1 sd).2 = Ok () →
     (load_state_dict m1 sd).1 = (load_state_dict m2 sd).1).
Proof.
  intros Ha. destruct sd as [| | | | |sd| |]; try done.
  split.
  - unfold load_state_dict.
    destruct (load_network_arch sd m1 m2 Ha) as [H1 _].
    assert (unexpected_keys sd m1 = unexpected_keys sd m2) as ->.
    { unfold unexpected_keys. rewrite (named_parameters_names m1 m2); [done|].
      unfold arch in Ha.
      assert (Linear_arch <$> hidden_layers m1 = Linear_arch <$> hidden_layers m2)
        as Hh by congruence.
      apply (f_equal length) in Hh. by rewrite !length_fmap in Hh. }
    destruct (load_network sd m1) as [m1' [msgs1 missing1]],
             (load_network sd m2) as [m2' [msgs2 missing2]].
    cbn in *. by simplify_eq.
  - intros Hok. pose proof Hok as [_ Hf%load_network_clean]%load_state_dict_ok.
    destruct (load_network_arch sd m1 m2 Ha) as [H1 H2].
    specialize (H2 Hf). unfold load_state_dict.
    destruct (load_network sd m1) as [m1' [msgs1 missing1]],
             (load_network sd m2) as [m2' [msgs2 missing2]].
    cbn in *. by simplify_eq.
Qed.

Lemma load_state_dict_self m1 m2 :
  arch m1 = arch m2 →
  load_state_dict m1 (PyDict (state_dict m2)) = (m2, Ok ()).
Proof.
  intros Ha.
  assert (load_state_dict m2 (PyDict (state_dict m2)) = (m2, Ok ())) as Hs.
  { unfold load_state_dict. rewrite load_network_self. cbn.
    rewrite (proj2 (unexpected_keys_nil _ _)); [done|].
    by rewrite state_dict_dom. }
  destruct (load_state_dict_arch (PyDict (state_dict m2)) m1 m2 Ha) as [H1 H2].
  rewrite Hs in H1, H2. cbn [fst snd] in H1, H2.
  apply injective_projections; cbn [fst snd]; [by apply H2|done].
Qed.

Lemma load_linear_parameters sd prefix l :
  layer_parameters prefix (load_linear sd prefix l).1
  = (λ kp, (kp.1, (load_param sd kp.1 kp.2).1)) <$> layer_parameters prefix l.
Proof.
  unfold load_linear, layer_parameters. cbn.
  destruct (load_param sd (prefix +:+ "weight") (weight l)),
           (load_param sd (prefix +:+ "bias") (bias l)). done.
Qed.

Lemma load_hidden_parameters sd i ls :
  hidden_parameters i (load_hidden sd i ls).1
  = (λ kp, (kp.1, (load_param sd kp.1 kp.2).1)) <$> hidden_parameters i ls.
Proof.
  revert i. induction ls as [|l ls IH]; intros i;
    cbn [load_hidden hidden_parameters]; [done|].
  rewrite fmap_app, <-IH, <-load_linear_parameters. by repeat case_match.
Qed.

Lemma load_network_parameters sd m :
  named_parameters (load_network sd m).1
  = (λ kp, (kp.1, (load_param sd kp.1 kp.2).1)) <$> named_parameters m.
Proof.
  unfold load_network, named_parameters.
  rewrite fmap_app, <-load_hidden_parameters, <-load_linear_parameters.
  by repeat case_match.
Qed.

(** After a successful call the module's state dict is the one loaded. *)
Lemma load_state_dict_result sd m :
  consistent sd m → state_dict (load_state_dict m (PyDict sd)).1 = sd.
Proof.
  intros [Hd Hf]. apply map_eq. intros k.
  assert ((load_state_dict m (PyDict sd)).1 = (load_network sd m).1) as ->.
  { unfold load_state_dict. by destruct (load_network sd m) as [? [? ?]]. }
  destruct (decide (k ∈ (named_parameters m).*1)) as [Hk|Hk].
  - apply list_elem_of_fmap in Hk as [[k' p] [-> Hk]]. cbn.
    rewrite Forall_forall in Hf. rewrite (load_param_value sd k' p (Hf _ Hk)).
    apply state_dict_lookup. rewrite load_network_parameters.
    apply list_elem_of_fmap. by exists (k', p).
  - trans (@None pyobj).
    + apply not_elem_of_dom. rewrite state_dict_dom, load_network_parameters.
      rewrite <-list_fmap_compose. intros H.
      by apply (elem_of_list_to_set (C:=gset string)) in H.
    + symmetry. apply not_elem_of_dom. rewrite Hd. intros H.
      by apply (elem_of_list_to_set (C:=gset string)) in H.
Qed.

(** ** [fc_model.Network] *)

Lemma as_sizes_ints hs : as_sizes ((λ n, PyInt (Z.of_nat n)) <$> hs) = Ok hs.
Proof.
  induction hs as [|h hs IH]; [done|]. cbn. rewrite IH.
  destruct (Z.leb_spec 0 (Z.of_nat h)); [|lia]. by rewrite Nat2Z.id.
Qed.

Lemma hidden_new_arch i hs r :
  Linear_arch <$> (hidden_new i hs r).1 = hidden_spec i hs.
Proof.
  revert i r. induction hs as [|h hs IH]; intros i r; [done|]. cbn.
  specialize (IH h (advance (h * 1) (advance (h * (i * 1)) r))).
  destruct (hidden_new h hs _) as [ls r2]. cbn in *. by rewrite IH.
Qed.

(** What the constructor builds does not depend on the random numbers but
    for the values of the parameters. *)
Lemma Network_new_arch a b c r1 r2 :
  match Network_new a b c r1, Network_new a b c r2 with
  | Ok (m1, _), Ok (m2, _) => arch m1 = arch m2
  | Err e1, Err e2 => e1 = e2
  | _, _ => False
  end.
Proof.
  unfold Network_new. repeat case_match; simplify_eq; try done.
  unfold arch. cbn.
  repeat match goal with
         | H : hidden_new ?i ?hs ?r = _ |- _ =>
             let H' := fresh in
             pose proof (hidden_new_arch i hs r) as H'; rewrite H in H';
             clear H
         end.
  cbn in *. simplify_eq. unfold Linear_arch at 2 4. cbn. congruence.
Qed.

Lemma Network_new_is_Network i o hs r :
  hs ≠ [] →
  ∃ m r', Network_new (PyInt (Z.of_nat i)) (PyInt (Z.of_nat o))
            (Notebook6.ints hs) r = Ok (m, r')
          ∧ is_Network i o hs m.
Proof.
  intros Hhs. unfold Network_new, Notebook6.ints.
  rewrite as_sizes_ints. cbn.
  destruct (last _) eqn:Hl.
  2:{ apply last_None in Hl. by destruct hs. }
  destruct (Z.leb_spec 0 (Z.of_nat i)); [|lia].
  destruct (Z.leb_spec 0 (Z.of_nat o)); [|lia].
  rewrite !Nat2Z.id.
  pose proof (hidden_new_arch i hs r) as Hh.
  destruct (hidden_new i hs r) as [ls r1]. cbn in *.
  eexists _, _. split; [done|]. split; [done|]. unfold arch. cbn.
  by rewrite Hh.
Qed.

Lemma is_Network_widths i o hs m : is_Network i o hs m → widths m = hs.
Proof.
  intros [_ Ha]. unfold arch in Ha.
  assert (Linear_arch <$> hidden_layers m = hidden_spec i hs) as Hh
    by congruence.
  clear Ha. unfold widths. revert i hs Hh.
  induction (hidden_layers m) as [|l ls IH]; intros i [|h hs] Hh;
    try done.
  rewrite !fmap_cons in *. cbn in Hh.
  assert (Linear_arch l = layer_spec i h) as Hl by congruence.
  assert (Linear_arch <$> ls = hidden_spec h hs) as Hls by congruence.
  injection Hl as _ -> _ _. by rewrite (IH _ _ Hls).
Qed.

(** ** [load_checkpoint] on the framework *)

(** The successful runs: the file holds a pickle with the four keys, the
    constructor accepts the hyperparameters and [load_state_dict] the state
    dict; the new module is then in the heap, loaded. *)
Lemma load_checkpoint_ok w f l w' :
  outcome (run torch (load_checkpoint f) w) = Ok l
  ∧ final (run torch (load_checkpoint f) w) = w' ↔
  ∃ ckpt a b c sd m r,
    fs w !! f = Some (Pickle ckpt)
    ∧ getitem ckpt "input_size" = Ok a
    ∧ getitem ckpt "output_size" = Ok b
    ∧ getitem ckpt "hidden_layers" = Ok c
    ∧ getitem ckpt "state_dict" = Ok sd
    ∧ Network_new a b c (random w) = Ok (m, r)
    ∧ (load_state_dict m sd).2 = Ok ()
    ∧ l = fresh (dom (heap w))
    ∧ w' = World (fs w) (<[l := (load_state_dict m sd).1]> (heap w)) r
             (globals w).
Proof.
  unfold load_checkpoint. unfold_prog. unfold torch_load, outcome, final.
  destruct (fs w !! f) as [[ckpt|]|] eqn:Hf; cbn.
  2,3: split; [by intros [[=] _]|by intros (?&?&?&?&?&?&?&[=]&_)].
  destruct (getitem ckpt "input_size") as [a|] eqn:Ha; cbn.
  2: split; [by intros [[=] _]|intros (?&?&?&?&?&?&?&[= <-]&?&_); congruence].
  destruct (getitem ckpt "output_size") as [b|] eqn:Hb; cbn.
  2: split; [by intros [[=] _]|intros (?&?&?&?&?&?&?&[= <-]&?&?&_); congruence].
  destruct (getitem ckpt "hidden_layers") as [c|] eqn:Hc; cbn.
  2: split; [by intros [[=] _]|intros (?&?&?&?&?&?&?&[= <-]&?&?&?&_); congruence].
  unfold network_new.
  destruct (Network_new a b c (random w)) as [[m r]|] eqn:Hn; cbn.
  2: split; [by intros [[=] _]|
             intros (?&?&?&?&?&?&?&[= <-]&?&?&?&?&?&_); congruence].
  destruct (getitem ckpt "state_dict") as [sd|] eqn:Hsd; cbn.
  2: split; [by intros [[=] _]|
             intros (?&?&?&?&?&?&?&[= <-]&?&?&?&?&_); congruence].
  unfold module_load_state_dict. cbn. rewrite lookup_insert_eq.
  destruct (load_state_dict m sd) as [m' [[]|e]] eqn:Hl; cbn.
  - rewrite insert_insert_eq. split.
    + intros [[= <-] <-]. exists ckpt, a, b, c, sd, m, r.
      rewrite Hl. by split_and!.
    + intros (?&?&?&?&?&?&?&[= <-]&?&?&?&?&?&?&->&->).
      unify_results. by rewrite Hl.
  - split; [by intros [[=] _]|].
    intros (?&?&?&?&?&?&?&[= <-]&?&?&?&?&?&?&_). unify_results.
    by rewrite Hl in *.
Qed.

(** ** The save half (cell 11) *)

Lemma checkpoint_of_keys m :
  getitem (Notebook6.checkpoint_of m) "input_size" = Ok (PyInt 784)
  ∧ getitem (Notebook6.checkpoint_of m) "output_size" = Ok (PyInt 10)
  ∧ getitem (Notebook6.checkpoint_of m) "hidden_layers"
    = Ok (Notebook6.ints (widths m))
  ∧ getitem (Notebook6.checkpoint_of m) "state_dict" = Ok (PyDict (state_dict m)).
Proof.
  split_and!; try reflexivity.
  unfold Notebook6.ints, widths. by rewrite <-list_fmap_compose.
Qed.

Lemma cell11_run w l m :
  globals w !! "model" = Some (PyModule l) →
  heap w !! l = Some m →
  fs w !! "checkpoint.pth" ≠ Some Directory →
  outcome (run torch Notebook6.cell11 w) = Ok ()
  ∧ final (run torch Notebook6.cell11 w)
    = World (<["checkpoint.pth" := Pickle (Notebook6.checkpoint_of m)]> (fs w))
        (heap w) (random w)
        (<["checkpoint" := Notebook6.checkpoint_of m]> (globals w)).
Proof.
  intros Hg Hh Hf. unfold Notebook6.cell11. unfold_prog.
  rewrite Hg. cbn. rewrite Hh. cbn. rewrite lookup_insert_eq. cbn.
  unfold torch_save. cbn.
  destruct (fs w !! "checkpoint.pth") as [[]|]; done.
Qed.

(** ** The modules on the machine *)

(** The constructor, training and loading make and keep networks of a
    configuration: the hypothesis [is_Network] of the statements below holds
    of every module the cells can have at hand. *)

Lemma Network_new_some a b c r m r' :
  Network_new a b c r = Ok (m, r') → ∃ i o hs, is_Network i o hs m.
Proof.
  unfold Network_new. destruct c as [| | |items| | | |]; try done.
  destruct (last items) eqn:Hlast; [|done].
  destruct (as_size a) as [i|]; [|done].
  destruct (as_sizes items) as [hs|] eqn:Hs; [|done].
  destruct (as_size b) as [o|]; [|done].
  pose proof (hidden_new_arch i hs r) as Hh.
  destruct (hidden_new i hs r) as [hid r1]. cbn. intros [= <- <-].
  exists i, o, hs. split.
  - intros ->. destruct items as [|v items]; [done|]. cbn in Hs.
    by repeat case_match.
  - unfold arch. cbn in *. by rewrite Hh.
Qed.

Lemma train_linear_arch l r : Linear_arch (train_linear l r).1 = Linear_arch l.
Proof. done. Qed.

Lemma train_hidden_arch ls r :
  Linear_arch <$> (train_hidden ls r).1 = Linear_arch <$> ls.
Proof.
  revert r. induction ls as [|l ls IH]; intros r; [done|]. cbn.
  specialize (IH (advance (foldr Nat.mul 1 (shape (bias l)))
                    (advance (foldr Nat.mul 1 (shape (weight l))) r))).
  destruct (train_hidden ls _) as [ls1 r2]. cbn in *. by rewrite IH.
Qed.

Lemma train_network_arch m r : arch (train_network m r).1 = arch m.
Proof.
  unfold train_network, arch.
  pose proof (train_hidden_arch (hidden_layers m) r) as Hh.
  destruct (train_hidden (hidden_layers m) r) as [hid r1]. cbn in *.
  by rewrite Hh.
Qed.

Lemma load_param_keeps_shape sd k p : shape (load_param sd k p).1 = shape p.
Proof. unfold load_param. by repeat case_match. Qed.

Lemma load_linear_keeps_arch sd prefix l :
  Linear_arch (load_linear sd prefix l).1 = Linear_arch l.
Proof.
  unfold load_linear, Linear_arch.
  pose proof (load_param_keeps_shape sd (prefix +:+ "weight") (weight l)).
  pose proof (load_param_keeps_shape sd (prefix +:+ "bias") (bias l)).
  repeat case_match. cbn in *. congruence.
Qed.

Lemma load_hidden_keeps_arch sd i ls :
  Linear_arch <$> (load_hidden sd i ls).1 = Linear_arch <$> ls.
Proof.
  revert i. induction ls as [|l ls IH]; intros i; [done|].
  cbn [load_hidden]. pose proof (load_linear_keeps_arch sd (hidden_prefix i) l).
  specialize (IH (S i)).
  destruct (load_linear sd (hidden_prefix i) l) as [l1 f1],
           (load_hidden sd (S i) ls) as [ls1 f2].
  cbn [fst snd] in *. rewrite !fmap_cons. by rewrite H, IH.
Qed.

Lemma load_state_dict_keeps_arch m sd : arch (load_state_dict m sd).1 = arch m.
Proof.
  destruct sd as [| | | | |sd| |]; try done.
  unfold load_state_dict, load_network, arch.
  pose proof (load_hidden_keeps_arch sd 0 (hidden_layers m)) as Hh.
  pose proof (load_linear_keeps_arch sd "output." (output m)) as Ho.
  destruct (load_hidden sd 0 (hidden_layers m)) as [hid [m1 k1]],
           (load_linear sd "output." (output m)) as [out [m2 k2]].
  cbn [fst snd hidden_layers output dropout join_findings] in *.
  by rewrite Hh, Ho.
Qed.

Lemma is_Network_arch i o hs m1 m2 :
  arch m1 = arch m2 → is_Network i o hs m2 → is_Network i o hs m1.
Proof. intros Ha [? ?]. split; [done|congruence]. Qed.

Lemma torch_networks_only {X} (o : op X) (w : world) :
  networks_only (heap w) → networks_only (heap (torch X o w).2).
Proof.
  intros Hw.
  destruct o as [obj f|f|model sd|model|a b c|model epochs|root d t|args|x|x v
                |module|line];
    cbn; try done.
  - unfold torch_save. by repeat case_match.
  - unfold torch_load. by repeat case_match.
  - unfold module_load_state_dict.
    destruct (heap w !! model) as [m|] eqn:Hm; [|done].
    pose proof (load_state_dict_keeps_arch m sd) as Ha.
    destruct (load_state_dict m sd) as [m' r]. cbn in *.
    intros l' m'' [[<- <-]|[_ Hl]]%lookup_insert_Some; [|by eapply Hw].
    destruct (Hw _ _ Hm) as (i & o & hs & Hn).
    exists i, o, hs. by eapply is_Network_arch.
  - by repeat case_match.
  - unfold network_new.
    destruct (Network_new _ _ _ _) as [[m r]|] eqn:Hn; [|done]. cbn.
    intros l' m'' [[<- <-]|[_ Hl]]%lookup_insert_Some; [|by eapply Hw].
    by eapply Network_new_some.
  - unfold module_train.
    destruct (heap w !! model) as [m|] eqn:Hm; [|done].
    pose proof (train_network_arch m (random w)) as Ha.
    destruct (train_network m (random w)) as [m' r]. cbn in *.
    intros l' m'' [[<- <-]|[_ Hl]]%lookup_insert_Some; [|by eapply Hw].
    destruct (Hw _ _ Hm) as (i & o & hs & Hn).
    exists i, o, hs. by eapply is_Network_arch.
  - unfold dataset_new. by repeat case_match.
  - by repeat case_match.
Qed.

Lemma run_networks_only {A} (p : prog A) (w : world) :
  networks_only (heap w) → networks_only (heap (final (run torch p w))).
Proof.
  revert w. induction p as [a|e|X o k IH]; intros w Hw; [done..|].
  cbn. pose proof (torch_networks_only o w Hw) as Hw1.
  destruct (torch X o w) as [[x|e] w1]; [|done]. cbn in Hw1.
  specialize (IH x w1 Hw1). by destruct (run torch (k x) w1) as [[r w2] tr].
Qed.

Lemma run_cells_networks_only (cells : list (prog unit)) (w : world) :
  networks_only (heap w) → networks_only (heap (run_cells torch cells w).2).
Proof.
  revert w. induction cells as [|c cells IH]; intros w Hw; [done|]. cbn.
  pose proof (run_networks_only c w Hw) as Hw1.
  destruct (run torch c w) as [[r w1] tr]. unfold final in Hw1. cbn in Hw1.
  specialize (IH w1 Hw1). by destruct (run_cells torch cells w1) as [rs w2].
Qed.

(** ** The checkpoint helper *)

(** C1: the save half writes to "checkpoint.pth" one pickled dictionary
    whose keys are exactly "input_size", "output_size", "hidden_layers" and
    "state_dict": 784, 10, the [out_features] of the hidden layers in layer
    order, and the model's state dict, which maps the parameter names to the
    parameter tensors. *)
Theorem checkpoint_contents (w : world) (l : loc) (model : Network) :
  globals w !! "model" = Some (PyModule l) →
  heap w !! l = Some model →
  fs w !! "checkpoint.pth" ≠ Some Directory →
  outcome (run torch Notebook6.cell11 w) = Ok ()
  ∧ ∃ d : gmap string pyobj,
      fs (final (run torch Notebook6.cell11 w)) !! "checkpoint.pth"
      = Some (Pickle (PyDict d))
      ∧ dom d = {["input_size"; "output_size"; "hidden_layers"; "state_dict"]}
      ∧ d !! "input_size" = Some (PyInt 784)
      ∧ d !! "output_size" = Some (PyInt 10)
      ∧ d !! "hidden_layers"
        = Some (PyList ((λ each, PyInt (Z.of_nat (out_features each)))
                          <$> hidden_layers model))
      ∧ d !! "state_dict" = Some (PyDict (state_dict model))
      ∧ ∀ name t, state_dict model !! name = Some (PyTensor t)
                  ↔ (name, t) ∈ named_parameters model.
Proof.
  intros Hg Hh Hf. destruct (cell11_run w l model Hg Hh Hf) as [-> ->].
  split; [done|]. eexists. split; [apply lookup_insert_eq|].
  split_and!; try reflexivity.
  intros name t. split; [|apply state_dict_lookup].
    intros [[k t'] [[= -> ->] H]]%elem_of_list_to_map_2%list_elem_of_fmap.
    done.
Qed.

Lemma checkpoint_contents_witness :
  outcome (run torch Notebook6.cell11 (sample_world zeros)) = Ok ()
  ∧ ∃ d : gmap string pyobj,
      fs (final (run torch Notebook6.cell11 (sample_world zeros)))
        !! "checkpoint.pth" = Some (Pickle (PyDict d))
      ∧ dom d = {["input_size"; "output_size"; "hidden_layers"; "state_dict"]}
      ∧ d !! "input_size" = Some (PyInt 784)
      ∧ d !! "output_size" = Some (PyInt 10)
      ∧ d !! "hidden_layers"
        = Some (PyList ((λ each, PyInt (Z.of_nat (out_features each)))
                          <$> hidden_layers sample_network))
      ∧ d !! "state_dict" = Some (PyDict (state_dict sample_network))
      ∧ ∀ name t, state_dict sample_network !! name = Some (PyTensor t)
                  ↔ (name, t) ∈ named_parameters sample_network.
Proof.
  apply (checkpoint_contents (sample_world zeros) 0 sample_network).
  - reflexivity.
  - reflexivity.
  - discriminate.
Defined.

(** C3: [load_checkpoint] has no error handling of its own.  Whatever the
    library does: the library is called at most three times, once per step
    and in order (no retry); an exception raised by a call, or by a
    subscript of the loaded checkpoint, is the outcome of [load_checkpoint]
    and nothing runs after it (nothing is caught); and every exception that
    leaves [load_checkpoint] was raised by a library call or by a subscript
    (no error of its own). *)
Theorem load_checkpoint_no_recovery {W} (h : handler W) (filepath : string)
    (w : W) :
  let r := run h (load_checkpoint filepath) w in
  callee <$> calls r
    `prefix_of` ["torch.load"; "fc_model.Network"; "load_state_dict"]
  ∧ (∀ ev e, ev ∈ calls r → raised ev = Some e →
       outcome r = Err e ∧ last (calls r) = Some ev)
  ∧ (∀ ev checkpoint e, ev ∈ calls r → loaded ev = Some checkpoint →
       first_error checkpoint ["input_size"; "output_size"; "hidden_layers"]
       = Some e →
       outcome r = Err e ∧ calls r = [ev])
  ∧ (∀ ev ev' checkpoint e, ev ∈ calls r → loaded ev = Some checkpoint →
       ev' ∈ calls r → callee ev' = "fc_model.Network" → raised ev' = None →
       getitem checkpoint "state_dict" = Err e →
       outcome r = Err e
       ∧ callee <$> calls r = ["torch.load"; "fc_model.Network"])
  ∧ (∀ e, outcome r = Err e →
       (∃ ev, last (calls r) = Some ev ∧ raised ev = Some e)
       ∨ (∃ ev checkpoint, ev ∈ calls r ∧ loaded ev = Some checkpoint ∧
            first_error checkpoint
              ["input_size"; "output_size"; "hidden_layers"; "state_dict"]
            = Some e)).
Proof.
  intros r. subst r. unfold load_checkpoint. unfold_prog.
  repeat (case_match; unfold_prog; simplify_eq); unfold outcome, calls; cbn.
  all: split_and!.
  all: try (by eexists).
  all: try (intros ev ex Hin Hr; in_calls Hin; cbn in Hr; by simplify_eq).
  all: try (intros ev c ex Hin Hl Hf; in_calls Hin; cbn in Hl; simplify_eq;
            cbn in Hf; repeat case_match; by simplify_eq || congruence).
  all: try (intros ev ev' c ex Hin Hl Hin' Hn Hr Hs; in_calls Hin;
            cbn in Hl; simplify_eq; in_calls Hin'; cbn in Hn, Hr;
            simplify_eq; first [done | congruence | split; [congruence|done]]).
  all: intros ex He; simplify_eq.
  all: try (left; eexists; split; [done|done]).
  all: right; eexists _, _; split; [apply list_elem_of_here|]; split; [done|];
    cbn; repeat case_match; congruence.
Qed.

(** C5: the reconstruction call of the load half does not run on every call
    of [load_checkpoint].  There is no [if] in the function: whatever the
    library does, [fc_model.Network] is called exactly when [torch.load]
    returned an object whose three hyperparameter subscripts evaluate.  On
    a machine without the file, and on the machine of cell 7 (the file holds
    a bare state dict) the call is not made; on the machine of cell 11 it
    is. *)
Theorem reconstruction_is_conditional :
  (∀ W (h : handler W) (filepath : string) (w : W),
     "fc_model.Network" ∈ callee <$> calls (run h (load_checkpoint filepath) w)
     ↔ ∃ ev checkpoint,
         ev ∈ calls (run h (load_checkpoint filepath) w)
         ∧ loaded ev = Some checkpoint
         ∧ first_error checkpoint
             ["input_size"; "output_size"; "hidden_layers"] = None)
  ∧ callee <$> calls (run torch (load_checkpoint "checkpoint.pth") (clean zeros))
    = ["torch.load"]
  ∧ outcome (run torch (load_checkpoint "checkpoint.pth") (clean zeros))
    = Err (FileNotFoundError "checkpoint.pth")
  ∧ callee <$> calls (run torch (load_checkpoint "checkpoint.pth") after_cell7)
    = ["torch.load"]
  ∧ outcome (run torch (load_checkpoint "checkpoint.pth") after_cell7)
    = Err (KeyError "input_size")
  ∧ callee <$> calls (run torch (load_checkpoint "checkpoint.pth") after_cell11)
    = ["torch.load"; "fc_model.Network"; "load_state_dict"].
Proof.
  split; [|by vm_compute].
  intros W h filepath w. unfold load_checkpoint. unfold_prog.
  repeat (case_match; unfold_prog; simplify_eq); unfold calls; cbn.
  all: split.
  all: try (intros _; eexists _, _; split; [apply list_elem_of_here|];
            split; [done|]; cbn; repeat case_match; congruence).
  all: try (intros Hin; cbn in Hin;
            repeat (apply elem_of_cons in Hin as [Hin|Hin]; [discriminate|]);
            by apply elem_of_nil in Hin).
  all: try (intros _; cbn; by repeat constructor).
  all: intros (ev & c & Hin & Hl & Hf); in_calls Hin; cbn in Hl; simplify_eq;
    cbn in Hf; repeat case_match; congruence.
Qed.

(** C4: on a file that holds a pickled object, [load_checkpoint] returns a
    model exactly when the four keys are present and the state dict is
    consistent with the network built from the hyperparameters: it has the
    names of the network's parameters and no others, each with a tensor of
    the parameter's shape. *)
Theorem load_checkpoint_returns_iff (w : world) (filepath : string)
    (checkpoint : pyobj) :
  fs w !! filepath = Some (Pickle checkpoint) →
  (∃ model, outcome (run torch (load_checkpoint filepath) w) = Ok model)
  ↔ ∃ a b c sd,
      getitem checkpoint "input_size" = Ok a
      ∧ getitem checkpoint "output_size" = Ok b
      ∧ getitem checkpoint "hidden_layers" = Ok c
      ∧ getitem checkpoint "state_dict" = Ok (PyDict sd)
      ∧ ∃ r m r', Network_new a b c r = Ok (m, r') ∧ consistent sd m.
Proof.
  intros Hf. split.
  - intros [l Hl].
    destruct (proj1 (load_checkpoint_ok w filepath l _) (conj Hl eq_refl))
      as (ckpt & a & b & c & sd & m & r & ? & ? & ? & ? & ? & ? & Hok & _).
    unify_results. destruct sd as [| | | | |sd| |]; try done.
    exists a, b, c, sd. split_and!; try done.
    exists (random w), m, r. split; [done|]. by apply load_state_dict_ok.
  - intros (a & b & c & sd & ? & ? & ? & ? & r & m & r' & Hn & Hc).
    pose proof (Network_new_arch a b c r (random w)) as Ha. rewrite Hn in Ha.
    destruct (Network_new a b c (random w)) as [[m2 r2]|] eqn:Hn2; [|done].
    exists (fresh (dom (heap w))).
    eapply (load_checkpoint_ok w filepath _ _).
    exists checkpoint, a, b, c, (PyDict sd), m2, r2. split_and!; try done.
    destruct (load_state_dict_arch (PyDict sd) m m2 Ha) as [<- _].
    by apply load_state_dict_ok.
Qed.

Lemma load_checkpoint_returns_iff_witness :
  (∃ model,
     outcome (run torch (load_checkpoint "checkpoint.pth") (saved_world zeros))
     = Ok model)
  ↔ ∃ a b c sd,
      getitem (Notebook6.checkpoint_of sample_network) "input_size" = Ok a
      ∧ getitem (Notebook6.checkpoint_of sample_network) "output_size" = Ok b
      ∧ getitem (Notebook6.checkpoint_of sample_network) "hidden_layers" = Ok c
      ∧ getitem (Notebook6.checkpoint_of sample_network) "state_dict"
        = Ok (PyDict sd)
      ∧ ∃ r m r', Network_new a b c r = Ok (m, r') ∧ consistent sd m.
Proof.
  apply (load_checkpoint_returns_iff (saved_world zeros) "checkpoint.pth").
  reflexivity.
Defined.

(** C8, amended: for every [Network(784, 10, hidden)] bound to [model],
    whatever its parameter values, the save half followed by
    [load_checkpoint] on the file returns a new module with the input size,
    output size, hidden-layer widths and state dict of the original. *)
Theorem checkpoint_roundtrip (w : world) (l : loc) (model : Network)
    (hidden : list nat) :
  is_Network 784 10 hidden model →
  globals w !! "model" = Some (PyModule l) →
  heap w !! l = Some model →
  fs w !! "checkpoint.pth" ≠ Some Directory →
  ∃ l' model',
    outcome (run torch
               (Notebook6.cell11 ≫= λ _, load_checkpoint "checkpoint.pth") w)
    = Ok l'
    ∧ heap (final (run torch
               (Notebook6.cell11 ≫= λ _, load_checkpoint "checkpoint.pth") w))
        !! l' = Some model'
    ∧ l' ≠ l
    ∧ input_size model' = input_size model
    ∧ output_size model' = output_size model
    ∧ widths model' = widths model
    ∧ state_dict model' = state_dict model.
Proof.
  intros Hnet Hg Hh Hf. rewrite run_bind.
  destruct (cell11_run w l model Hg Hh Hf) as [Ho Hw].
  destruct (run torch Notebook6.cell11 w) as [[r1 w1] tr1].
  unfold outcome, final in Ho, Hw. cbn in Ho, Hw. subst r1 w1.
  destruct (checkpoint_of_keys model) as (Ha & Hb & Hc & Hsd).
  destruct Hnet as [Hne Harch].
  destruct (Network_new_is_Network 784 10 hidden (random w) Hne)
    as (m0 & r0 & Hn & _ & Harch0).
  rewrite (is_Network_widths 784 10 hidden model) in Hc by done.
  set (w1 := World _ _ _ _).
  assert (outcome (run torch (load_checkpoint "checkpoint.pth") w1)
            = Ok (fresh (dom (heap w)))
          ∧ final (run torch (load_checkpoint "checkpoint.pth") w1)
            = World (fs w1) (<[fresh (dom (heap w)) := model]> (heap w)) r0
                (globals w1)) as [Ho Hw].
  { apply load_checkpoint_ok.
    exists (Notebook6.checkpoint_of model), (PyInt 784), (PyInt 10),
      (Notebook6.ints hidden), (PyDict (state_dict model)), m0, r0.
    rewrite (load_state_dict_self m0 model) by congruence.
    split_and!; try done. apply lookup_insert_eq. }
  destruct (run torch (load_checkpoint "checkpoint.pth") w1) as [[r2 w2] tr2].
  unfold outcome, final in *. cbn in *. subst r2 w2.
  exists (fresh (dom (heap w))), model. cbn. split_and!; try done.
  - apply lookup_insert_eq.
  - intros Heq. apply (is_fresh (dom (heap w))). rewrite Heq.
    apply elem_of_dom. by eexists.
Qed.

Lemma checkpoint_roundtrip_witness :
  ∃ l' model',
    outcome (run torch
               (Notebook6.cell11 ≫= λ _, load_checkpoint "checkpoint.pth")
               (sample_world zeros))
    = Ok l'
    ∧ heap (final (run torch
               (Notebook6.cell11 ≫= λ _, load_checkpoint "checkpoint.pth")
               (sample_world zeros)))
        !! l' = Some model'
    ∧ l' ≠ 0
    ∧ input_size model' = input_size sample_network
    ∧ output_size model' = output_size sample_network
    ∧ widths model' = widths sample_network
    ∧ state_dict model' = state_dict sample_network.
Proof.
  apply (checkpoint_roundtrip (sample_world zeros) 0 sample_network [2]).
  - split; [discriminate|reflexivity].
  - reflexivity.
  - reflexivity.
  - discriminate.
Defined.

(** C8 as stated fails for a network that is not 784 by 10: the dictionary
    literal says 784 and 10 whatever the model is, and the network rebuilt
    from it does not take the saved tensors. *)
Lemma checkpoint_roundtrip_fails_off_784_10 :
  is_Network 4 2 [3] small_network
  ∧ globals small_world !! "model" = Some (PyModule 0)
  ∧ heap small_world !! 0 = Some small_network
  ∧ outcome (run torch
               (Notebook6.cell11 ≫= λ _, load_checkpoint "checkpoint.pth")
               small_world)
    = Err (RuntimeError
             [SizeMismatch "hidden_layers.0.weight" [3; 4] [3; 784];
              SizeMismatch "output.weight" [2; 3] [10; 3];
              SizeMismatch "output.bias" [2] [10]]).
Proof. split_and!; [split; [discriminate|reflexivity]|reflexivity..]. Qed.

(** C9: two runs of [load_checkpoint] on the same file, on machines that
    may differ in everything else and in particular in the random numbers
    the constructor draws, both return or both raise the same exception;
    when they return, the two modules are equal, and their state dict is the
    one stored in the file: every parameter was overwritten. *)
Theorem load_checkpoint_ignores_initialisation (w1 w2 : world)
    (filepath : string) :
  fs w1 !! filepath = fs w2 !! filepath →
  match outcome (run torch (load_checkpoint filepath) w1),
        outcome (run torch (load_checkpoint filepath) w2) with
  | Ok l1, Ok l2 =>
      ∃ m checkpoint,
        heap (final (run torch (load_checkpoint filepath) w1)) !! l1 = Some m
        ∧ heap (final (run torch (load_checkpoint filepath) w2)) !! l2 = Some m
        ∧ fs w1 !! filepath = Some (Pickle checkpoint)
        ∧ getitem checkpoint "state_dict" = Ok (PyDict (state_dict m))
  | Err e1, Err e2 => e1 = e2
  | _, _ => False
  end.
Proof.
  intros Hfs. unfold load_checkpoint. unfold_prog.
  unfold torch_load, outcome, final. rewrite Hfs.
  destruct (fs w2 !! filepath) as [[ckpt|]|]; cbn; try done.
  destruct (getitem ckpt "input_size") as [a|]; cbn; [|done].
  destruct (getitem ckpt "output_size") as [b|]; cbn; [|done].
  destruct (getitem ckpt "hidden_layers") as [c|]; cbn; [|done].
  unfold network_new.
  pose proof (Network_new_arch a b c (random w1) (random w2)) as Ha.
  destruct (Network_new a b c (random w1)) as [[m1 r1]|],
           (Network_new a b c (random w2)) as [[m2 r2]|]; cbn; try done.
  destruct (getitem ckpt "state_dict") as [sd|] eqn:Hsd; cbn; [|done].
  unfold module_load_state_dict. cbn. rewrite !lookup_insert_eq.
  destruct (load_state_dict_arch sd m1 m2 Ha) as [H1 H2]. clear Ha.
  destruct (load_state_dict m1 sd) as [m1' [[]|e1]] eqn:Hl1,
           (load_state_dict m2 sd) as [m2' [[]|e2]] eqn:Hl2;
    cbn [fst snd] in *; try done; [|congruence].
  specialize (H2 eq_refl). subst m2'. cbn.
  exists m1', ckpt. rewrite !lookup_insert_eq. split_and!; try done.
  destruct sd as [| | | | |sd| |]; try done.
  rewrite Hsd. do 2 f_equal. symmetry.
  replace m1' with (load_state_dict m1 (PyDict sd)).1 by by rewrite Hl1.
  apply load_state_dict_result, load_state_dict_ok. by rewrite Hl1.
Qed.

Lemma load_checkpoint_ignores_initialisation_witness :
  match outcome (run torch (load_checkpoint "checkpoint.pth")
                   (saved_world zeros)),
        outcome (run torch (load_checkpoint "checkpoint.pth")
                   (saved_world ones)) with
  | Ok l1, Ok l2 =>
      ∃ m checkpoint,
        heap (final (run torch (load_checkpoint "checkpoint.pth")
                       (saved_world zeros))) !! l1 = Some m
        ∧ heap (final (run torch (load_checkpoint "checkpoint.pth")
                         (saved_world ones))) !! l2 = Some m
        ∧ fs (saved_world zeros) !! "checkpoint.pth" = Some (Pickle checkpoint)
        ∧ getitem checkpoint "state_dict" = Ok (PyDict (state_dict m))
  | Err e1, Err e2 => e1 = e2
  | _, _ => False
  end.
Proof.
  apply (load_checkpoint_ignores_initialisation
           (saved_world zeros) (saved_world ones) "checkpoint.pth").
  reflexivity.
Defined.

(** ** Loading into another architecture *)

Lemma load_linear_other sd prefix l1 l2 :
  (∀ k t, (k, t) ∈ layer_parameters prefix l2 → sd !! k = Some (PyTensor t)) →
  (load_linear sd prefix l1).2
  = (size_mismatches (shapes (layer_parameters prefix l2))
       (shapes (layer_parameters prefix l1)), []).
Proof.
  intros H. unfold load_linear, load_param.
  rewrite (H _ (weight l2)), (H _ (bias l2)) by set_solver. cbn.
  by repeat case_decide.
Qed.

Lemma size_mismatches_app ts1 ts2 ps1 ps2 :
  length ts1 = length ps1 →
  size_mismatches (ts1 ++ ts2) (ps1 ++ ps2)
  = size_mismatches ts1 ps1 ++ size_mismatches ts2 ps2.
Proof.
  revert ps1. induction ts1 as [|[k t] ts1 IH]; intros [|[k' p] ps1] Hlen;
    try discriminate; [done|]. cbn. rewrite IH by by injection Hlen.
  by rewrite (assoc (++)).
Qed.

Lemma load_hidden_other sd i ls1 ls2 :
  length ls1 = length ls2 →
  (∀ k t, (k, t) ∈ hidden_parameters i ls2 → sd !! k = Some (PyTensor t)) →
  (load_hidden sd i ls1).2
  = (size_mismatches (shapes (hidden_parameters i ls2))
       (shapes (hidden_parameters i ls1)), []).
Proof.
  revert i ls2. induction ls1 as [|l1 ls1 IH]; intros i [|l2 ls2] Hlen H;
    try discriminate; cbn [load_hidden hidden_parameters] in *; [done|].
  injection Hlen as Hlen.
  unfold shapes. rewrite !fmap_app, size_mismatches_app by done.
  pose proof (load_linear_other sd (hidden_prefix i) l1 l2) as Hl.
  pose proof (IH (S i) ls2) as Hh.
  destruct (load_linear sd (hidden_prefix i) l1) as [l1' f1],
           (load_hidden sd (S i) ls1) as [ls1' f2]. cbn in *.
  rewrite Hl, Hh; [done|done|..].
  - intros k t Hk. apply H. set_solver.
  - intros k t Hk. apply H. set_solver.
Qed.

(** Into a network with as many hidden layers, the only errors are size
    mismatches. *)
Lemma hidden_parameters_length i ls1 ls2 :
  length ls1 = length ls2 →
  length (hidden_parameters i ls1) = length (hidden_parameters i ls2).
Proof.
  intros H.
  rewrite <-(length_fmap fst (hidden_parameters i ls1)),
    <-(length_fmap fst (hidden_parameters i ls2)).
  f_equal. by apply hidden_parameters_names.
Qed.

Lemma load_state_dict_other m1 m2 :
  length (hidden_layers m1) = length (hidden_layers m2) →
  (load_state_dict m1 (PyDict (state_dict m2))).2
  = match size_mismatches (shapes (named_parameters m2))
            (shapes (named_parameters m1)) with
    | [] => Ok ()
    | msgs => Err (RuntimeError msgs)
    end.
Proof.
  intros Hlen. unfold load_state_dict, load_network.
  pose proof (load_hidden_other (state_dict m2) 0 _ _ Hlen) as Hh.
  pose proof (load_linear_other (state_dict m2) "output." (output m1)
                (output m2)) as Ho.
  rewrite (proj2 (unexpected_keys_nil _ _)).
  2:{ by rewrite state_dict_dom, (named_parameters_names m1 m2). }
  unfold named_parameters, shapes. rewrite !fmap_app.
  rewrite size_mismatches_app
    by (rewrite !length_fmap; by apply hidden_parameters_length).
  fold (shapes (hidden_parameters 0 (hidden_layers m1))).
  fold (shapes (hidden_parameters 0 (hidden_layers m2))).
  fold (shapes (layer_parameters "output." (output m1))).
  fold (shapes (layer_parameters "output." (output m2))).
  set (A := size_mismatches (shapes (hidden_parameters _ _)) _) in *.
  set (B := size_mismatches (shapes (layer_parameters _ _)) _) in *.
  destruct (load_hidden _ 0 _) as [hid fh], (load_linear _ "output." _)
    as [out fo]. cbn [fst snd] in Hh, Ho.
  rewrite Hh, Ho.
  - unfold join_findings. cbn [fst snd app nonempty]. by destruct (A ++ B).
  - intros k t Hk. apply state_dict_lookup. unfold named_parameters. set_solver.
  - intros k t Hk. apply state_dict_lookup. unfold named_parameters. set_solver.
Qed.

Lemma is_Network_three a b c m :
  is_Network 784 10 [a; b; c] m →
  length (hidden_layers m) = 3
  ∧ shapes (named_parameters m)
    = [("hidden_layers.0.weight", [a; 784]); ("hidden_layers.0.bias", [a]);
       ("hidden_layers.1.weight", [b; a]); ("hidden_layers.1.bias", [b]);
       ("hidden_layers.2.weight", [c; b]); ("hidden_layers.2.bias", [c]);
       ("output.weight", [10; c]); ("output.bias", [10])].
Proof.
  intros [_ Ha]. destruct m as [hid out d]. unfold arch in Ha.
  pose proof (f_equal (λ x, x.1.1) Ha) as Hh.
  pose proof (f_equal (λ x, x.1.2) Ha) as Ho. clear Ha. cbn in Hh, Ho.
  destruct hid as [|l0 [|l1 [|l2 [|]]]]; try discriminate.
  pose proof (f_equal (λ x, x !! 0) Hh) as H0.
  pose proof (f_equal (λ x, x !! 1) Hh) as H1.
  pose proof (f_equal (λ x, x !! 2) Hh) as H2. clear Hh.
  unfold Linear_arch, layer_spec in *. cbn in H0, H1, H2.
  split; [done|]. unfold shapes, named_parameters. cbn.
  repeat f_equal; congruence.
Qed.

Lemma hidden_parameters_key_iff i ls j :
  hidden_prefix j +:+ "weight" ∈ (hidden_parameters i ls).*1
  ↔ (i ≤ j < i + length ls)%nat.
Proof.
  revert i. induction ls as [|l ls IH]; intros i; cbn.
  { split; [by intros ?%elem_of_nil|lia]. }
  rewrite !elem_of_cons, IH. split.
  - intros [[-> _]%hidden_key_inj|[[_ [=]]%hidden_key_inj|?]]; lia.
  - intros H. destruct (decide (j = i)) as [->|]; [by left|].
    right. right. lia.
Qed.

Lemma hidden_layers_key_iff m j :
  hidden_prefix j +:+ "weight" ∈ (named_parameters m).*1
  ↔ (j < length (hidden_layers m))%nat.
Proof.
  unfold named_parameters. rewrite fmap_app, elem_of_app.
  rewrite hidden_parameters_key_iff. cbn. rewrite !elem_of_cons. split.
  - intros [?|[?%hidden_key_not_output|[?%hidden_key_not_output|?%elem_of_nil]]];
      (done || lia).
  - intros ?. left. lia.
Qed.

(** Any three widths but the saved ones give a size mismatch. *)
Lemma three_widths_mismatch trained other a b c :
  is_Network 784 10 [512; 256; 128] trained →
  is_Network 784 10 [a; b; c] other →
  [a; b; c] ≠ [512; 256; 128] →
  ∃ msgs key s1 s2,
    (load_state_dict other (PyDict (state_dict trained))).2
    = Err (RuntimeError msgs)
    ∧ SizeMismatch key s1 s2 ∈ msgs.
Proof.
  intros [Hlen Hsh]%is_Network_three [Hlen' Hsh']%is_Network_three Hne.
  rewrite load_state_dict_other, Hsh, Hsh' by congruence.
  cbn [size_mismatches].
  destruct (decide (a = 512)) as [->|].
  2:{ rewrite (decide_False (P := [512; 784] = [a; 784])) by congruence.
      eexists _, _, _, _. split; [done|]. apply list_elem_of_here. }
  destruct (decide (b = 256)) as [->|].
  2:{ rewrite (decide_False (P := [256; 512] = [b; 512])) by congruence.
      rewrite !decide_True by done.
      eexists _, _, _, _. split; [done|]. apply list_elem_of_here. }
  destruct (decide (c = 128)) as [->|]; [done|].
  rewrite (decide_False (P := [128; 256] = [c; 256])) by congruence.
  rewrite !decide_True by done.
  eexists _, _, _, _. split; [done|]. apply list_elem_of_here.
Qed.

(** C2: a state dict saved from a [Network(784, 10, [512, 256, 128])],
    whatever the parameter values, is refused by a network of widths
    [400, 200, 100] with the [RuntimeError] the notebook records, seven size
    mismatches; it is refused with a [RuntimeError] that has a size mismatch
    by every network of three other widths, and with a [RuntimeError] by
    every network of other widths, however many; and a network of the same
    configuration takes it, every key matched, and has the saved parameters
    afterwards. *)
Theorem load_state_dict_needs_same_architecture (trained : Network) :
  is_Network 784 10 [512; 256; 128] trained →
  (∀ other, is_Network 784 10 [400; 200; 100] other →
     (load_state_dict other (PyDict (state_dict trained))).2
     = Err (RuntimeError
         [SizeMismatch "hidden_layers.0.weight" [512; 784] [400; 784];
          SizeMismatch "hidden_layers.0.bias" [512] [400];
          SizeMismatch "hidden_layers.1.weight" [256; 512] [200; 400];
          SizeMismatch "hidden_layers.1.bias" [256] [200];
          SizeMismatch "hidden_layers.2.weight" [128; 256] [100; 200];
          SizeMismatch "hidden_layers.2.bias" [128] [100];
          SizeMismatch "output.weight" [10; 128] [10; 100]]))
  ∧ (∀ other a b c, is_Network 784 10 [a; b; c] other →
       [a; b; c] ≠ [512; 256; 128] →
       ∃ msgs key s1 s2,
         (load_state_dict other (PyDict (state_dict trained))).2
         = Err (RuntimeError msgs)
         ∧ SizeMismatch key s1 s2 ∈ msgs)
  ∧ (∀ other hidden, is_Network 784 10 hidden other →
       hidden ≠ [512; 256; 128] →
       ∃ msgs,
         (load_state_dict other (PyDict (state_dict trained))).2
         = Err (RuntimeError msgs))
  ∧ (∀ same, is_Network 784 10 [512; 256; 128] same →
       load_state_dict same (PyDict (state_dict trained)) = (trained, Ok ())).
Proof.
  intros Ht. split_and!.
  - intros other [Hlen' Hsh']%is_Network_three.
    destruct (is_Network_three _ _ _ _ Ht) as [Hlen Hsh].
    rewrite load_state_dict_other, Hsh, Hsh' by congruence. reflexivity.
  - intros other a b c Ho Hne. by apply (three_widths_mismatch _ _ a b c).
  - intros other hidden Ho Hne.
    destruct (load_state_dict other (PyDict (state_dict trained))).2
      as [[]|e] eqn:Hl.
    2:{ apply load_state_dict_err in Hl as (msg & msgs & ->). by eexists. }
    exfalso. pose proof Hl as [Hd _]%load_state_dict_ok.
    rewrite state_dict_dom in Hd.
    destruct (is_Network_three _ _ _ _ Ht) as [Hlen _].
    assert (∀ j, j < length (hidden_layers other) ↔ j < 3)%nat as Hj.
    { intros j. rewrite <-Hlen, <-!hidden_layers_key_iff.
      rewrite <-!(elem_of_list_to_set (C:=gset string)). by rewrite Hd. }
    assert (length (hidden_layers other) = 3) as Hlen'.
    { pose proof (Hj 2). pose proof (Hj 3). lia. }
    pose proof (is_Network_widths _ _ _ _ Ho) as Hw.
    apply (f_equal length) in Hw. unfold widths in Hw.
    rewrite length_fmap, Hlen' in Hw.
    destruct hidden as [|a [|b [|c [|]]]]; try discriminate.
    destruct (three_widths_mismatch trained other a b c Ht Ho Hne)
      as (msgs & _ & _ & _ & Hl' & _).
    congruence.
  - intros same [_ Hs]. apply load_state_dict_self. destruct Ht. congruence.
Qed.

Lemma load_state_dict_needs_same_architecture_witness :
  (∀ other, is_Network 784 10 [400; 200; 100] other →
     (load_state_dict other
        (PyDict (state_dict (three_layers 512 256 128 ones)))).2
     = Err (RuntimeError
         [SizeMismatch "hidden_layers.0.weight" [512; 784] [400; 784];
          SizeMismatch "hidden_layers.0.bias" [512] [400];
          SizeMismatch "hidden_layers.1.weight" [256; 512] [200; 400];
          SizeMismatch "hidden_layers.1.bias" [256] [200];
          SizeMismatch "hidden_layers.2.weight" [128; 256] [100; 200];
          SizeMismatch "hidden_layers.2.bias" [128] [100];
          SizeMismatch "output.weight" [10; 128] [10; 100]]))
  ∧ (∀ other a b c, is_Network 784 10 [a; b; c] other →
       [a; b; c] ≠ [512; 256; 128] →
       ∃ msgs key s1 s2,
         (load_state_dict other
            (PyDict (state_dict (three_layers 512 256 128 ones)))).2
         = Err (RuntimeError msgs)
         ∧ SizeMismatch key s1 s2 ∈ msgs)
  ∧ (∀ other hidden, is_Network 784 10 hidden other →
       hidden ≠ [512; 256; 128] →
       ∃ msgs,
         (load_state_dict other
            (PyDict (state_dict (three_layers 512 256 128 ones)))).2
         = Err (RuntimeError msgs))
  ∧ (∀ same, is_Network 784 10 [512; 256; 128] same →
       load_state_dict same
         (PyDict (state_dict (three_layers 512 256 128 ones)))
       = (three_layers 512 256 128 ones, Ok ())).
Proof.
  apply (load_state_dict_needs_same_architecture
           (three_layers 512 256 128 ones)).
  split; [discriminate|reflexivity].
Defined.

(** C2 as stated fails for widths that only add layers: a network of
    widths [512, 256, 128, 128] has every tensor of the saved state dict at
    the size it expects; the [RuntimeError] it raises is about the two keys
    of the layer the state dict does not have, and no size is mismatched. *)
Lemma load_state_dict_missing_keys_only :
  is_Network 784 10 [512; 256; 128] (three_layers 512 256 128 ones)
  ∧ is_Network 784 10 [512; 256; 128; 128] (four_layers 512 256 128 128 zeros)
  ∧ [512; 256; 128; 128] ≠ [512; 256; 128]
  ∧ (load_state_dict (four_layers 512 256 128 128 zeros)
       (PyDict (state_dict (three_layers 512 256 128 ones)))).2
    = Err (RuntimeError
             [MissingKeys ["hidden_layers.3.weight"; "hidden_layers.3.bias"]]).
Proof.
  split_and!; [split; [discriminate|reflexivity]..|discriminate|].
  vm_compute. reflexivity.
Qed.
(** ** What the notebooks write *)

Lemma prefix_refl (s : string) : String.prefix s s = true.
Proof. induction s as [|a s IH]; [done|]. cbn. by destruct (ascii_dec a a). Qed.

Lemma prefix_append (s t : string) : String.prefix s (s +:+ t) = true.
Proof.
  induction s as [|a s IH]; [by destruct ("" +:+ t)|]. rewrite append_cons.
  cbn. by destruct (ascii_dec a a).
Qed.

(** The calls of a run are calls the program can make. *)
Lemma writes_only_calls {A} (allowed : string → Prop) (p : prog A) :
  writes_only allowed p →
  ∀ W (h : handler W) (w : W) (ev : event) (path : string),
    ev ∈ calls (run h p w) → event_may_write ev path → allowed path.
Proof.
  induction 1 as [a|e|X o k Ho _ IH]; intros W h w ev path Hev Hw.
  - by apply elem_of_nil in Hev.
  - by apply elem_of_nil in Hev.
  - unfold calls in *. cbn in Hev. destruct (h X o w) as [[x|e] w1].
    + specialize (IH x W h w1 ev path).
      destruct (run h (k x) w1) as [[r w2] tr]. cbn in *.
      apply elem_of_cons in Hev as [->|Hev]; [by apply Ho|by apply IH].
    + cbn in Hev. apply elem_of_cons in Hev as [->|Hev]; [by apply Ho|].
      by apply elem_of_nil in Hev.
Qed.

Lemma writes_only_frame {A W F} (allowed ambient : string → Prop)
    (h : handler W) (files : W → string → option F) (p : prog A) :
  respects h files ambient →
  writes_only allowed p →
  ∀ w path, ¬ allowed path → ¬ ambient path →
    files (final (run h p w)) path = files w path.
Proof.
  intros Hh. induction 1 as [a|e|X o k Ho _ IH]; intros w path Hp Ha;
    [done..|].
  cbn. pose proof (Hh X o w path) as Hf.
  destruct (h X o w) as [[x|e] w1]; cbn in *.
  - specialize (IH x w1 path Hp Ha).
    destruct (run h (k x) w1) as [[r w2] tr]. unfold final in *. cbn in *.
    rewrite IH. apply Hf; [|done]. intros Hw. by apply Hp, Ho.
  - apply Hf; [|done]. intros Hw. by apply Hp, Ho.
Qed.

Lemma run_cells_frame {W F} (allowed ambient : string → Prop)
    (h : handler W) (files : W → string → option F)
    (cells : list (prog unit)) :
  respects h files ambient →
  Forall (writes_only allowed) cells →
  ∀ w path, ¬ allowed path → ¬ ambient path →
    files (run_cells h cells w).2 path = files w path.
Proof.
  intros Hh. induction 1 as [|c cells Hc _ IH]; intros w path Hp Ha; [done|].
  cbn.
  pose proof (writes_only_frame allowed ambient h files c Hh Hc w path Hp Ha)
    as Hf.
  destruct (run h c w) as [[r w1] tr]. unfold final in Hf. cbn in Hf.
  specialize (IH w1 path Hp Ha). destruct (run_cells h cells w1) as [rs w2].
  cbn in *. by rewrite IH.
Qed.

Ltac solve_writes :=
  repeat first
    [ apply writes_ret
    | apply writes_raise
    | apply writes_call;
      [ cbn; intros ? ?; first [ done | by left | by right | tauto ]
      | intros ? ]
    | progress unfold_prog
    | case_match ].

Lemma notebook6_writes :
  Forall (writes_only
            (λ path, path = "checkpoint.pth"
                     ∨ String.prefix "~/.pytorch/F_MNIST_data/" path = true))
    Notebook6.cells.
Proof.
  unfold Notebook6.cells.
  repeat (apply Forall_cons; split); [..|by apply Forall_nil].
  all: unfold Notebook6.cell1, Notebook6.cell2, Notebook6.cell3,
    Notebook6.cell4, Notebook6.cell5, Notebook6.cell6, Notebook6.cell7,
    Notebook6.cell8, Notebook6.cell9, Notebook6.cell10, Notebook6.cell11,
    Notebook6.cell13, load_checkpoint, Notebook6.as_module.
  all: solve_writes.
Qed.

Lemma notebook3_writes :
  Forall (writes_only
            (λ path, String.prefix "~/.pytorch/MNIST_data/" path = true))
    Notebook3.cells.
Proof.
  unfold Notebook3.cells.
  repeat (apply Forall_cons; split); [..|by apply Forall_nil].
  all: unfold Notebook3.cell1, Notebook3.cell2, Notebook3.cell3,
    Notebook3.cell4, Notebook3.cell5, Notebook3.cell6, Notebook3.cell7,
    Notebook3.cell8, Notebook3.cell9, Notebook3.cell10, Notebook3.cell11,
    Notebook3.cell12, Notebook3.cell13, Notebook3.cell14, Notebook3.cell16,
    Notebook3.cell17, Notebook3.epoch, Notebook3.loss_of_batch,
    Notebook3.assign, Notebook3.name, Notebook3.print.
  all: solve_writes.
Qed.

(** The framework model writes where the arguments say, and the machine
    with the caches writes below "__pycache__/" besides. *)
Lemma torch_respects :
  respects torch (λ w path, fs w !! path) (λ _, False).
Proof.
  intros X o w path Hw _.
  destruct o as [obj f|f|model sd|model|a b c|model epochs|root d t|args|x|x v
                |module|line]; cbn in *; try done.
  - unfold torch_save. repeat case_match; try done.
    all: cbn; rewrite lookup_insert_ne; [done|congruence].
  - unfold torch_load. by repeat case_match.
  - unfold module_load_state_dict. by repeat case_match.
  - by repeat case_match.
  - unfold network_new. by repeat case_match.
  - unfold module_train. by repeat case_match.
  - unfold dataset_new. repeat case_match; try done.
    cbn. rewrite lookup_insert_ne; [done|]. intros <-. apply Hw.
    split; [done|apply prefix_refl].
  - by repeat case_match.
Qed.

Lemma caching_respects :
  respects caching (λ w path, fs w !! path)
    (λ path, String.prefix "__pycache__/" path = true).
Proof.
  intros X o w path Hw Ha.
  destruct o as [obj f|f|model sd|model|a b c|model epochs|root d t|args|x|x v
                |module|line];
    try exact (torch_respects _ _ w path Hw id).
  cbn. rewrite lookup_insert_ne; [done|]. intros Heq. apply Ha.
  rewrite <-Heq. apply prefix_append.
Qed.

(** C6, amended: the checkpoint file is not the only artifact.  Whatever
    the framework does, the calls of the checkpoint notebook that take a
    path to write to are [torch.save] to "checkpoint.pth" and the data set
    constructors, with [download=True], at and below
    "~/.pytorch/F_MNIST_data/"; the calls of the training notebook are the
    data set constructor at and below "~/.pytorch/MNIST_data/", and none
    writes the checkpoint file.  On every machine whose framework writes
    where the arguments of a call say, and on its own account in ambient
    places only (the caches of imports among them), running the cells
    leaves every path as it was that is not the checkpoint file, not at or
    below the data set root and not ambient. *)
Theorem notebooks_write_checkpoint_and_datasets :
  (∀ W (h : handler W) (w : W) (c : prog unit) (ev : event) (path : string),
     c ∈ Notebook6.cells →
     ev ∈ calls (run h c w) →
     event_may_write ev path →
     path = "checkpoint.pth"
     ∨ String.prefix "~/.pytorch/F_MNIST_data/" path = true)
  ∧ (∀ W (h : handler W) (w : W) (c : prog unit) (ev : event) (path : string),
       c ∈ Notebook3.cells →
       ev ∈ calls (run h c w) →
       event_may_write ev path →
       String.prefix "~/.pytorch/MNIST_data/" path = true)
  ∧ (∀ W F (h : handler W) (files : W → string → option F)
       (ambient : string → Prop) (w : W) (path : string),
       respects h files ambient →
       path ≠ "checkpoint.pth" →
       String.prefix "~/.pytorch/F_MNIST_data/" path = false →
       ¬ ambient path →
       files (run_cells h Notebook6.cells w).2 path = files w path)
  ∧ (∀ W F (h : handler W) (files : W → string → option F)
       (ambient : string → Prop) (w : W) (path : string),
       respects h files ambient →
       String.prefix "~/.pytorch/MNIST_data/" path = false →
       ¬ ambient path →
       files (run_cells h Notebook3.cells w).2 path = files w path).
Proof.
  split_and!.
  - intros W h w c ev path Hc Hev Hw.
    pose proof notebook6_writes as H. rewrite Forall_forall in H.
    by apply (writes_only_calls _ c (H c Hc) W h w ev path).
  - intros W h w c ev path Hc Hev Hw.
    pose proof notebook3_writes as H. rewrite Forall_forall in H.
    by apply (writes_only_calls _ c (H c Hc) W h w ev path).
  - intros W F h files ambient w path Hh Hp Hd Ha.
    apply (run_cells_frame _ ambient h files _ Hh notebook6_writes);
      [|done].
    intros [?|?]; congruence.
  - intros W F h files ambient w path Hh Hd Ha.
    apply (run_cells_frame _ ambient h files _ Hh notebook3_writes);
      [|done].
    congruence.
Qed.

(** An instance: on the machine whose imports write their caches, a path
    that is none of these is not touched by either notebook, and the cache
    of [fc_model] is written. *)
Lemma notebooks_write_checkpoint_and_datasets_witness :
  (∀ path,
     path ≠ "checkpoint.pth" →
     String.prefix "~/.pytorch/F_MNIST_data/" path = false →
     String.prefix "__pycache__/" path = false →
     fs (run_cells caching Notebook6.cells (clean zeros)).2 !! path = None)
  ∧ (∀ path,
       String.prefix "~/.pytorch/MNIST_data/" path = false →
       String.prefix "__pycache__/" path = false →
       fs (run_cells caching Notebook3.cells (clean zeros)).2 !! path = None)
  ∧ is_Some (fs (run_cells caching Notebook6.cells (clean zeros)).2
               !! "__pycache__/fc_model.pyc").
Proof.
  destruct notebooks_write_checkpoint_and_datasets as (_ & _ & H6 & H3).
  split_and!.
  - intros path Hp Hd Ha.
    apply (H6 world file caching (λ w path, fs w !! path)
             (λ path, String.prefix "__pycache__/" path = true)
             (clean zeros) path caching_respects Hp Hd).
    congruence.
  - intros path Hd Ha.
    apply (H3 world file caching (λ w path, fs w !! path)
             (λ path, String.prefix "__pycache__/" path = true)
             (clean zeros) path caching_respects Hd).
    congruence.
  - vm_compute. by eexists.
Defined.

(** C6 as stated fails: on a clean machine the checkpoint notebook leaves
    the data set under its root, a path that is not the checkpoint file;
    the checkpoint file is there too. *)
Lemma notebook6_writes_the_dataset :
  "~/.pytorch/F_MNIST_data/" ≠ "checkpoint.pth"
  ∧ fs (clean zeros) !! "~/.pytorch/F_MNIST_data/" = None
  ∧ fs (run_cells torch Notebook6.cells (clean zeros)).2
      !! "~/.pytorch/F_MNIST_data/" = Some Directory
  ∧ is_Some (fs (run_cells torch Notebook6.cells (clean zeros)).2
               !! "checkpoint.pth").
Proof.
  split_and!; [discriminate|reflexivity|reflexivity|vm_compute; by eexists].
Qed.

(** ** Single precision arithmetic *)

(** [Float32.round] and the operations give the numbers of the Standard
    Library's IEEE 754 specification on the sample numbers: zeros, ties,
    subnormal numbers, overflow. *)
Lemma Float32_agrees_with_SpecFloat :
  forallb (λ m1,
    forallb (λ e1,
      forallb (λ p, Float32.agrees m1 e1 p.1 p.2) Float32.sample_partners)
      Float32.sample_exponents)
    Float32.sample_mantissas = true.
Proof. by vm_compute. Qed.

Lemma round_proper (x y : Q) : (x == y)%Q → Float32.round x = Float32.round y.
Proof. intros H. unfold Float32.round. by rewrite (Qred_complete x y H). Qed.

Lemma same_refl (a : float32) : Float32.same a a = true.
Proof. destruct a as [q|[]|]; try done. apply Qeq_bool_iff. reflexivity. Qed.

(** Where [1 / n] is exact, multiplying by it is dividing by [n]. *)
Lemma mul_exact_reciprocal (n a : float32) :
  Float32.exact_reciprocal n = true →
  Float32.mul (Float32.div (Finite 1) n) a = Float32.div a n.
Proof.
  unfold Float32.exact_reciprocal.
  destruct n as [x| |]; [|done..].
  destruct (Float32.div (Finite 1) (Finite x)) as [r| |] eqn:Hr; [|done..].
  rewrite !andb_true_iff. intros [[[[Hx Hxn] Hrz] Hrn] Hrx].
  apply negb_true_iff in Hx, Hxn, Hrz, Hrn. apply Qeq_bool_iff in Hrx.
  destruct a as [q|s|]; cbn; [|by rewrite Hrz, Hrn, Hxn|done].
  rewrite Hx. apply round_proper.
  assert (¬ (x == 0)%Q) as Hx0.
  { unfold Float32.is_zero in Hx. apply Z.eqb_neq in Hx.
    unfold Qeq. cbn. lia. }
  transitivity (q * (r * x) / x)%Q; [field; exact Hx0|].
  rewrite Hrx. field. exact Hx0.
Qed.

Lemma exact_reciprocal_powers :
  forallb (λ k, Float32.exact_reciprocal (Float32.of_Z (2 ^ Z.of_nat k)))
    (seq 0 128) = true.
Proof. by vm_compute. Qed.

Lemma count_power_exact (k : nat) :
  (k ≤ 127)%nat → Float32.exact_reciprocal (Autograd.count (2 ^ k)) = true.
Proof.
  intros Hk. unfold Autograd.count, Float32.of_nat.
  rewrite Nat2Z.inj_pow. change (Z.of_nat 2) with 2%Z.
  pose proof exact_reciprocal_powers as H. rewrite forallb_forall in H.
  apply (H k). apply in_seq. lia.
Qed.

(** ** Autograd *)

(** C7, amended: before any backward call [x.grad] is [None]; after
    [z = (x ** 2).mean()] and [z.backward()], for a tensor [x] of any shape
    and any entries, [x.grad] has the shape of [x] and the entries
    [(1 / n) * (2 * x)], each operation rounded to float32.  When the number
    of entries is a power of two this is the tensor [2 * x / n], entry by
    entry the same float32 number. *)
Theorem backward_applies_chain_rule (values : tensor) :
  Autograd.x_grad ∅ = None
  ∧ ∃ grads z',
      Autograd.backward (Autograd.z values) ∅ = Ok (grads, z')
      ∧ Autograd.x_grad grads = Some (Autograd.chain_rule values)
      ∧ ∀ k, (k ≤ 127)%nat → numel values = 2 ^ k →
          Autograd.tensor_eq (Autograd.chain_rule values)
            (Autograd.analytic values).
Proof.
  split; [done|]. eexists _, _. split; [reflexivity|]. split; [reflexivity|].
  intros k Hk Hn. split; [done|]. apply Forall_forall. intros i _.
  unfold Autograd.chain_rule, Autograd.analytic, Autograd.div_scalar,
    Autograd.mul_scalar. cbn [storage].
  rewrite mul_exact_reciprocal by (rewrite Hn; by apply count_power_exact).
  apply same_refl.
Qed.

Lemma backward_applies_chain_rule_witness :
  ∃ grads z',
    Autograd.backward (Autograd.z two_by_two) ∅ = Ok (grads, z')
    ∧ Autograd.x_grad grads = Some (Autograd.chain_rule two_by_two)
    ∧ Autograd.tensor_eq (Autograd.chain_rule two_by_two)
        (Autograd.analytic two_by_two).
Proof.
  destruct (backward_applies_chain_rule two_by_two)
    as (_ & grads & z' & Hb & Hg & Heq).
  exists grads, z'. split_and!; [done|done|].
  apply (Heq 2); [lia|reflexivity].
Defined.

(** A second backward pass through the same graph raises: the first one
    freed the tensor the power kept. *)
Lemma backward_twice_raises (values : tensor) (grads : gmap nat tensor) :
  ∃ grads' z',
    Autograd.backward (Autograd.z values) grads = Ok (grads', z')
    ∧ Autograd.backward z' grads'
      = Err (RuntimeError
               [Message "Trying to backward through the graph a second time"]).
Proof. by eexists _, _. Qed.

(** C7 as stated fails for three entries: for the float32 numbers nearest
    0.1, 0.7 and 1.3 the third entry of [x.grad] is 14540254 / 2 ^ 24 and
    the third entry of [2 * x / 3] is 14540253 / 2 ^ 24. *)
Lemma backward_differs_from_analytic :
  numel tenths = 3
  ∧ ∃ grads z' g,
      Autograd.backward (Autograd.z tenths) ∅ = Ok (grads, z')
      ∧ Autograd.x_grad grads = Some g
      ∧ storage g 2 = Finite (7270127 # 8388608)
      ∧ storage (Autograd.analytic tenths) 2 = Finite (14540253 # 16777216)
      ∧ ¬ Autograd.tensor_eq g (Autograd.analytic tenths).
Proof.
  split; [done|]. eexists _, _, _. split; [reflexivity|].
  split; [reflexivity|]. split; [by vm_compute|]. split; [by vm_compute|].
  intros [_ H]. rewrite Forall_forall in H.
  specialize (H 2). cbn in H.
  assert (2 ∈ seq 0 3) as Hin by (apply elem_of_seq; lia).
  specialize (H Hin). vm_compute in H. discriminate.
Qed.

(** ** The training loop *)

Section TrainingLoopProofs.

Import TrainingLoop.

Context {model batch : Type}.
Variable training_pass : model → batch → model * Q.
Variable trainloader : nat → list batch.
Variable len_trainloader : nat.

(** A loop whose body never breaks runs its [else] suite. *)
Lemma for_else_no_break {St X} (items : list X) (body : X → St → St * flow)
    (orelse : St → result St) (s : St) :
  (∀ x s, (body x s).2 = Next) →
  for_else items body orelse s
  = orelse (foldl (λ s x, (body x s).1) s items).
Proof.
  intros Hb. revert s. induction items as [|x items IH]; intros s; [done|].
  cbn. specialize (Hb x s). destruct (body x s) as [s' []]; [|done].
  apply IH.
Qed.

(** A [break] leaves the loop without the [else] suite. *)
Lemma for_else_break {St X} (x : X) (items : list X)
    (body : X → St → St * flow) (orelse : St → result St) (s : St) :
  (body x s).2 = Break → for_else (x :: items) body orelse s = Ok (body x s).1.
Proof. cbn. by destruct (body x s) as [s' []]. Qed.

Lemma loop_body_next b s : (loop_body training_pass b s).2 = Next.
Proof. unfold loop_body. by destruct (training_pass (net s) b). Qed.

Lemma batches_spec bs m acc out :
  foldl (λ s b, (loop_body training_pass b s).1) (State m acc out) bs
  = State (after_batches training_pass m bs)
      (foldl Qplus acc (losses training_pass m bs)) out.
Proof.
  revert m acc. induction bs as [|b bs IH]; intros m acc; [done|].
  cbn. unfold loop_body at 2. cbn.
  destruct (training_pass m b) as [m' loss] eqn:Hp. cbn. by rewrite IH.
Qed.

Lemma epoch_spec e s :
  len_trainloader ≠ 0 →
  epoch training_pass trainloader len_trainloader e s
  = Ok (State (after_batches training_pass (net s) (trainloader e))
          (foldl Qplus 0%Q (losses training_pass (net s) (trainloader e)))
          (stdout s ++
           [foldl Qplus 0 (losses training_pass (net s) (trainloader e))
            / count len_trainloader]%Q)).
Proof.
  intros Hlen. unfold epoch.
  rewrite for_else_no_break by apply loop_body_next.
  rewrite batches_spec. unfold print_loss. by rewrite decide_False.
Qed.

Lemma for_range_spec m0 n i acc out :
  len_trainloader ≠ 0 →
  ∃ acc',
    for_range i n (epoch training_pass trainloader len_trainloader)
      (State (model_at training_pass trainloader m0 i) acc out)
    = Ok (State (model_at training_pass trainloader m0 (i + n)) acc'
            (out ++ (average_loss training_pass trainloader len_trainloader m0
                       <$> seq i n))).
Proof.
  intros Hlen. revert i acc out. induction n as [|n IH]; intros i acc out.
  { exists acc. cbn. by rewrite Nat.add_0_r, (right_id [] (++)). }
  cbn [for_range]. rewrite epoch_spec by done. cbn [net stdout].
  change (after_batches training_pass (model_at training_pass trainloader m0 i)
            (trainloader i))
    with (model_at training_pass trainloader m0 (S i)).
  change (foldl Qplus 0
            (losses training_pass (model_at training_pass trainloader m0 i)
               (trainloader i)) / count len_trainloader)%Q
    with (average_loss training_pass trainloader len_trainloader m0 i).
  destruct (IH (S i)
    (foldl Qplus 0%Q
       (losses training_pass (model_at training_pass trainloader m0 i)
          (trainloader i)))
    (out ++ [average_loss training_pass trainloader len_trainloader m0 i]))
    as [acc' ->].
  exists acc'. rewrite <-(assoc (++)). cbn.
  by replace (i + S n) with (S i + n) by lia.
Qed.

(** Without batches the average divides by zero in the first epoch. *)
Lemma training_empty_loader (s : state model) :
  len_trainloader = 0 →
  (∀ e, trainloader e = []) →
  training training_pass trainloader len_trainloader s = Err ZeroDivisionError.
Proof.
  intros Hlen Hb. unfold training, epochs. cbn. unfold epoch.
  rewrite Hb. cbn. unfold print_loss. by rewrite decide_True.
Qed.

End TrainingLoopProofs.

(** C10: the body of the inner loop never breaks, so its [else] suite runs
    in every epoch; an epoch does not depend on the [running_loss] it
    starts from, which is set to 0; with a loader that is not empty the loop
    prints exactly once per epoch, five lines in all, and the value printed
    for an epoch is the sum of the losses of that epoch alone over
    [len(trainloader)]. *)
Theorem training_prints_once_per_epoch {model batch : Type}
    (training_pass : model → batch → model * Q)
    (trainloader : nat → list batch) (len_trainloader : nat)
    (s : TrainingLoop.state model) :
  len_trainloader ≠ 0 →
  (∀ b s', (TrainingLoop.loop_body training_pass b s').2 = TrainingLoop.Next)
  ∧ (∀ e m acc out,
       TrainingLoop.epoch training_pass trainloader len_trainloader e
         (TrainingLoop.State m acc out)
       = TrainingLoop.epoch training_pass trainloader len_trainloader e
           (TrainingLoop.State m 0%Q out))
  ∧ ∃ s',
      TrainingLoop.training training_pass trainloader len_trainloader s = Ok s'
      ∧ TrainingLoop.stdout s'
        = TrainingLoop.stdout s
          ++ (TrainingLoop.average_loss training_pass trainloader
                len_trainloader (TrainingLoop.net s) <$> seq 0 5)
      ∧ length (TrainingLoop.stdout s')
        = length (TrainingLoop.stdout s) + TrainingLoop.epochs.
Proof.
  intros Hlen. split; [apply loop_body_next|]. split; [done|].
  destruct s as [m acc out].
  destruct (for_range_spec training_pass trainloader len_trainloader m
              TrainingLoop.epochs 0 acc out Hlen) as [acc' H].
  eexists. split; [exact H|]. cbn [TrainingLoop.stdout TrainingLoop.net].
  split; [done|]. by rewrite length_app, length_fmap, length_seq.
Qed.

Lemma training_prints_once_per_epoch_witness :
  (∀ b s', (TrainingLoop.loop_body (λ (m : nat) (b : Q), (S m, b)) b s').2
           = TrainingLoop.Next)
  ∧ (∀ e m acc out,
       TrainingLoop.epoch (λ (m : nat) (b : Q), (S m, b)) (λ _, [1%Q; 2%Q]) 2 e
         (TrainingLoop.State m acc out)
       = TrainingLoop.epoch (λ (m : nat) (b : Q), (S m, b)) (λ _, [1%Q; 2%Q]) 2 e
           (TrainingLoop.State m 0%Q out))
  ∧ ∃ s',
      TrainingLoop.training (λ (m : nat) (b : Q), (S m, b))
        (λ _, [1%Q; 2%Q]) 2 (TrainingLoop.State 0 7%Q []) = Ok s'
      ∧ TrainingLoop.stdout s'
        = TrainingLoop.stdout (TrainingLoop.State 0 7%Q [])
          ++ (TrainingLoop.average_loss (λ (m : nat) (b : Q), (S m, b))
                (λ _, [1%Q; 2%Q]) 2
                (TrainingLoop.net (TrainingLoop.State 0 7%Q [])) <$> seq 0 5)
      ∧ length (TrainingLoop.stdout s')
        = length (TrainingLoop.stdout (TrainingLoop.State 0 7%Q []))
          + TrainingLoop.epochs.
Proof.
  apply (training_prints_once_per_epoch (λ (m : nat) (b : Q), (S m, b))
           (λ _, [1%Q; 2%Q]) 2 (TrainingLoop.State 0 7%Q [])).
  discriminate.
Defined.
